(** * The note-editing session of heilou: editor state and route error handler

    A shallow embedding of [src/libs/web/state/editor.ts] (the [useEditor]
    hook behind [EditorState]) and of [src/components/route-error-handler.tsx].

    The hook is event driven and single threaded: every callback runs to
    completion on one state, so each callback is a function on an explicit
    state record, the effects it has on its collaborators (persistence,
    router, toast sink) are appended to a chronological trace, and an
    asynchronous call is modelled by the way its promise settles. *)

From Stdlib Require Import String Ascii List Bool ZArith Lia.
Import ListNotations.
Open Scope string_scope.

(** ** JavaScript values used by the two files *)

Module JS.

(** A string is truthy when it is not empty ([if (s)], [s || d]). *)
Definition truthy (s : string) : bool :=
  match s with
  | EmptyString => false
  | String _ _ => true
  end.

(** An optional string ([string | null | undefined]) under [if (x)]. *)
Definition truthy_opt (o : option string) : bool :=
  match o with
  | Some s => truthy s
  | None => false
  end.

(** [a || d] on an optional string. *)
Definition or_else (o : option string) (d : string) : string :=
  match o with
  | Some s => if truthy s then s else d
  | None => d
  end.

(** [s.slice(1)], for a string whose first character is an ASCII one
    (a single byte here, a single unit there), as the slash of a note
    address is. *)
Definition slice1 (s : string) : string :=
  match s with
  | EmptyString => EmptyString
  | String _ r => r
  end.

(** [hay.includes(needle)] on strings. *)
Fixpoint includes (hay needle : string) : bool :=
  if String.prefix needle hay then true
  else match hay with
       | EmptyString => false
       | String _ r => includes r needle
       end.

(** [arr.includes(x)] on an array of strings. *)
Definition array_includes (arr : list string) (x : string) : bool :=
  existsb (String.eqb x) arr.

(** How a promise settles: fulfilled with a value, or rejected with the
    message of the error. *)
Inductive Settled (A : Type) : Type :=
| Fulfilled (a : A)
| Rejected (err : string).
Arguments Fulfilled {A} a.
Arguments Rejected {A} err.

(** [s.substring(n)] for [n] within the string: the first [n] characters
    are dropped. *)
Fixpoint drop (n : nat) (s : string) : string :=
  match n, s with
  | O, _ => s
  | S _, EmptyString => EmptyString
  | S n, String _ r => drop n r
  end.

(** [s.replace(pat, '')] with a string pattern: the first occurrence of
    [pat] is taken out, the rest is kept. *)
Fixpoint remove_first (s pat : string) : string :=
  if String.prefix pat s then drop (String.length pat) s
  else match s with
       | EmptyString => EmptyString
       | String c r => String c (remove_first r pat)
       end.

End JS.
Import JS.

(** ** Notes

    [NoteModel] and [NoteCacheItem] are declared outside the two files; the
    fields below are the ones the hook reads.  A [NoteModel] always has an
    [id] ([result.id]); its [content] and [pid] are optional
    ([note?.content]).  [Partial<NoteModel>] has every field optional. *)

Module Note.
Record t : Type := mk
  { id : string;
    title : string;
    pid : option string;
    content : option string }.
End Note.

Definition NoteModel : Type := Note.t.

Module Partial.
Record t : Type := mk
  { id : option string;
    title : option string;
    pid : option string;
    content : option string }.

Definition empty : t :=
  {| id := None; title := None; pid := None; content := None |}.

(** The patch [{ content: c }] both callers hand to [onNoteChange]. *)
Definition of_content (c : string) : t :=
  {| id := None; title := None; pid := None; content := Some c |}.

(** [{ ...note }] for an optional note: spreading [undefined] adds nothing. *)
Definition of_note (n : option NoteModel) : t :=
  match n with
  | None => empty
  | Some n =>
      {| id := Some (Note.id n); title := Some (Note.title n);
         pid := Note.pid n; content := Note.content n |}
  end.

Definition over {A} (late early : option A) : option A :=
  match late with
  | Some a => Some a
  | None => early
  end.

(** [{ ...a, ...b }]: the fields of [b] win. *)
Definition spread (a b : t) : t :=
  {| id := over (id b) (id a);
     title := over (title b) (title a);
     pid := over (pid b) (pid a);
     content := over (content b) (content a) |}.

(** [data.pid = p]. *)
Definition set_pid (p : string) (d : t) : t :=
  {| id := id d; title := title d; pid := Some p; content := content d |}.
End Partial.

(** ** The router (next/router)

    The hook reads [router.query] and [router.asPath] and calls
    [router.replace(url, undefined, { shallow: true })].  The query is kept
    as the key/value pairs of the address' search string, in order. *)

Module Router.

Record t : Type := mk
  { query : list (string * string);
    asPath : string }.

(** lodash [has(router.query, key)]. *)
Definition has (q : list (string * string)) (key : string) : bool :=
  existsb (fun kv => String.eqb (fst kv) key) q.

(** [router.query[key]]. *)
Fixpoint get (q : list (string * string)) (key : string) : option string :=
  match q with
  | [] => None
  | (k, v) :: r => if String.eqb k key then Some v else get r key
  end.

(** The text after the first [?] of an address, when there is one. *)
Fixpoint search_of (url : string) : option string :=
  match url with
  | EmptyString => None
  | String c r => if Ascii.eqb c "?" then Some r else search_of r
  end.

(** Splitting a string at every occurrence of a character. *)
Fixpoint split_on (sep : ascii) (s : string) : list string :=
  match s with
  | EmptyString => [EmptyString]
  | String c r =>
      if Ascii.eqb c sep then EmptyString :: split_on sep r
      else match split_on sep r with
           | [] => [String c EmptyString]
           | w :: ws => String c w :: ws
           end
  end.

(** [key=value] (or a bare [key]) to a pair. *)
Fixpoint key_value (kv : string) : string * string :=
  match kv with
  | EmptyString => (EmptyString, EmptyString)
  | String c r =>
      if Ascii.eqb c "=" then (EmptyString, r)
      else let (k, v) := key_value r in (String c k, v)
  end.

(** The query an address carries. *)
Definition query_of_url (url : string) : list (string * string) :=
  match search_of url with
  | None => []
  | Some q => map key_value (filter JS.truthy (split_on "&" q))
  end.

(** Modelled from the spec: [router.replace(url, undefined,
    { shallow: true })] of next/router (not under src/) "replaces the
    navigation location with that address": the location becomes [url],
    and the query the one [url] carries. *)
Definition replace (url : string) (_ : t) : t :=
  {| query := query_of_url url; asPath := url |}.

(** The query of a router is the one of the address it shows. *)
Definition consistent (r : t) : Prop :=
  query r = query_of_url (asPath r).

End Router.

(** ** What a hover event and the portal carry *)

(** The hovered element: which node it is, its [href] attribute and its
    class list. *)
Record Element : Type := mkElement
  { node : nat;
    getAttribute_href : option string;
    classList : list string }.

(** [editorEl.current]: the mounted editor, its [props.readOnly] and its
    [view]. *)
Record MarkdownEditor : Type := mkEditor
  { readOnly : bool;
    view : nat }.

Record PreviewData : Type := mkPreviewData
  { preview_id : option string }.

Record ToolbarData : Type := mkToolbarData
  { toolbar_href : string;
    toolbar_view : option nat }.

(** Modelled from the spec: the two anchored instances of [PortalState]
    (libs/web/state/portal, not under src/), [preview] and [linkToolbar].
    Each is a "LinkHoverState": the element it is anchored at and its
    target.  An instance is open while it is anchored: [setAnchor] opens
    it at an element, [close] takes it away from where it was. *)
Module Portal.

Record Instance (D : Type) : Type := mkInstance
  { anchor : option Element;
    data : option D }.
Arguments mkInstance {D}.
Arguments anchor {D}.
Arguments data {D}.

Definition close {D} (i : Instance D) : Instance D :=
  {| anchor := None; data := data i |}.

Definition setData {D} (d : D) (i : Instance D) : Instance D :=
  {| anchor := anchor i; data := Some d |}.

Definition setAnchor {D} (e : Element) (i : Instance D) : Instance D :=
  {| anchor := Some e; data := data i |}.

Record t : Type := mk
  { preview : Instance PreviewData;
    linkToolbar : Instance ToolbarData }.

Definition set_preview (i : Instance PreviewData) (p : t) : t :=
  {| preview := i; linkToolbar := linkToolbar p |}.

Definition set_linkToolbar (i : Instance ToolbarData) (p : t) : t :=
  {| preview := preview p; linkToolbar := i |}.



End Portal.

(** ** The local note cache *)

(** A cached snapshot; only [linkIds] is read by the hook. *)
Record NoteCacheItem : Type := mkCacheItem
  { cache_id : string;
    rawContent : option string;
    linkIds : option (list string) }.

(** [noteCache.iterate(visitor)]: the visitor is called once per stored
    snapshot, in the order the cache yields them. *)
Definition iterate {S : Type} (cache : list NoteCacheItem)
    (visitor : NoteCacheItem -> S -> S) (init : S) : S :=
  fold_left (fun acc value => visitor value acc) cache init.

(** What a scan has gathered: the array [linkNotes], and how many times the
    visitor ran. *)
Record Scan : Type := mkScan
  { linkNotes : list NoteCacheItem;
    visits : nat }.

(** ** The editor hook, [useEditor] *)

Module Editor.

Inductive Severity : Type := success | error.

(** What the hook does to its collaborators, in the order it happens. *)
Inductive Effect : Type :=
| Invoked (data : Partial.t)
    (* the function wrapped by useDebouncedCallback runs on [data] *)
| CreateNote (n : Partial.t)
| UpdateNote (data : Partial.t)
| RouterReplace (url : string) (shallow : bool)
| Toast (msg : string) (sev : Severity).

(** Modelled from the spec: the debounced commit buffer, the object
    [useDebouncedCallback(fn, 500)] of the package use-debounce returns
    (not under src/).  It "accepts a content-patch; starts or resets a
    delay timer on every call; when the timer elapses, exactly one commit
    executes with the latest patch": [callback] records the patch and
    re-arms the timer, and hands back what the last run of [fn] returned
    ([undefined] before the first run); [flush] is the "flush now"
    operation, [cancel] drops the pending call.  [timerId] holds the time
    at which the timer is due. *)
Record Debounced : Type := mkDebounced
  { timerId : option Z;
    lastArgs : option Partial.t;
    result : option (Settled unit) }.

Definition idle : Debounced :=
  {| timerId := None; lastArgs := None; result := None |}.

(** The state of one editing session.  [isEditing] and [currentContent]
    are the two pieces of React state the hook reads and sets (their
    [useState] lines are not in the file as given); [now] is the clock, in
    milliseconds. *)
Record Session : Type := mkSession
  { isEditing : bool;
    currentContent : string;
    note : option NoteModel;
    router : Router.t;
    now : Z;
    onNoteChange : Debounced;
    trace : list Effect }.

Definition setIsEditing (b : bool) (s : Session) : Session :=
  {| isEditing := b; currentContent := currentContent s; note := note s;
     router := router s; now := now s; onNoteChange := onNoteChange s;
     trace := trace s |}.

Definition setCurrentContent (c : string) (s : Session) : Session :=
  {| isEditing := isEditing s; currentContent := c; note := note s;
     router := router s; now := now s; onNoteChange := onNoteChange s;
     trace := trace s |}.

Definition set_debounced (d : Debounced) (s : Session) : Session :=
  {| isEditing := isEditing s; currentContent := currentContent s;
     note := note s; router := router s; now := now s; onNoteChange := d;
     trace := trace s |}.

Definition set_now (t : Z) (s : Session) : Session :=
  {| isEditing := isEditing s; currentContent := currentContent s;
     note := note s; router := router s; now := t;
     onNoteChange := onNoteChange s; trace := trace s |}.

Definition emit (es : list Effect) (s : Session) : Session :=
  {| isEditing := isEditing s; currentContent := currentContent s;
     note := note s; router := router s; now := now s;
     onNoteChange := onNoteChange s; trace := trace s ++ es |}.

Definition set_router (r : Router.t) (s : Session) : Session :=
  {| isEditing := isEditing s; currentContent := currentContent s;
     note := note s; router := r; now := now s;
     onNoteChange := onNoteChange s; trace := trace s |}.

(** [toast(msg, sev)]. *)
Definition toast (msg : string) (sev : Severity) (s : Session) : Session :=
  emit [Toast msg sev] s.

(** The patches the wrapped function ran on, oldest first. *)
Fixpoint commits (tr : list Effect) : list Partial.t :=
  match tr with
  | [] => []
  | Invoked d :: r => d :: commits r
  | _ :: r => commits r
  end.

(** The fixed delay of the buffer. *)
Definition wait : Z := 500.

(** What a click on a link leads to: [router.push(href, undefined,
    { shallow })] or [window.open(href, target)]. *)
Inductive Navigation : Type :=
| RouterPush (href : string) (shallow : bool)
| WindowOpen (href target : string).

(** The request [onUploadImage] hands to the fetcher: its method, its
    address, and the file put in the form data under the key file. *)
Record UploadRequest : Type := mkUpload
  { upload_method : string;
    upload_url : string;
    upload_file : nat }.

(** One hit of [searchNote], and the suggestion [onSearchLink] makes of
    it. *)
Record SearchHit : Type := mkHit
  { hit_id : string;
    hit_title : string;
    hit_rawContent : option string }.

Record LinkSuggestion : Type := mkSuggestion
  { suggestion_title : string;
    suggestion_subtitle : string;
    suggestion_url : string }.

(** [onSearchLink(keyword)] (lines 25-38), given the hits [searchNote]
    found for the keyword; [searchRangeText text keyword maxLen] is the
    [match] field of what the search helper returns. *)
Definition onSearchLink (searchRangeText : string -> string -> Z -> string)
    (keyword : string) (list : list SearchHit)
    : Datatypes.list LinkSuggestion :=
  map (fun item =>
         {| suggestion_title := hit_title item;
            suggestion_subtitle :=
              searchRangeText
                (JS.or_else (hit_rawContent item) "") keyword 40%Z;
            suggestion_url := "/" ++ hit_id item |})
      list.

Section useEditor.

(** Collaborators of the hook that live outside the file: the root
    sentinel of the tree, the persistence operations of [NoteState],
    and the test for an internal note address. *)
Variable ROOT_ID : string.
Variable createNote : Partial.t -> Settled (option NoteModel).
Variable updateNote : Partial.t -> Settled unit.
Variable createNoteWithTitle : string -> Settled (option NoteModel).
Variable isNoteLink : string -> bool.

(** [`/${item?.id}`]. *)
Definition noteUrl (item : option NoteModel) : string :=
  "/" ++ match item with
         | Some n => Note.id n
         | None => "undefined"
         end.

(** The function handed to [useDebouncedCallback] (lines 57-71), for a run
    that nothing interrupts and whose [router.replace] goes through: what
    it does, the router it leaves, and how its promise settles.  The two
    parts its first await makes of it are [commit_start] and
    [commit_finish] below. *)
Definition commit (data : Partial.t) (note : option NoteModel)
    (r : Router.t) : list Effect * Router.t * Settled unit :=
  if Router.has (Router.query r) "new" then
    let data := Partial.set_pid
                  (JS.or_else (Router.get (Router.query r) "pid") ROOT_ID)
                  data in
    let n := Partial.spread (Partial.of_note note) data in
    match createNote n with
    | Rejected e => ([CreateNote n], r, Rejected e)
    | Fulfilled item =>
        if String.eqb (Router.asPath r) (noteUrl item)
        then ([CreateNote n], r, Fulfilled tt)
        else ([CreateNote n; RouterReplace (noteUrl item) true],
              Router.replace (noteUrl item) r, Fulfilled tt)
    end
  else ([UpdateNote data], r, updateNote data).

(** Modelled from the spec: [onNoteChange.callback(data)], a call that
    "starts or resets a delay timer" and keeps the latest patch; what it
    returns is the result of the last run of the wrapped function. *)
Definition callback (data : Partial.t) (s : Session)
    : Session * option (Settled unit) :=
  let d := onNoteChange s in
  (set_debounced {| timerId := Some (now s + wait)%Z;
                    lastArgs := Some data;
                    result := result d |} s,
   result d).

(** Modelled from the spec: the timer elapses, and "exactly one commit
    executes with the latest patch": the wrapped function runs once, on the
    patch of the latest call. *)
Definition invoke (s : Session) : Session :=
  match lastArgs (onNoteChange s) with
  | Some data =>
      let '(es, r, out) := commit data (note s) (router s) in
      emit (Invoked data :: es)
        (set_router r
           (set_debounced {| timerId := None; lastArgs := None;
                             result := Some out |} s))
  | None =>
      set_debounced {| timerId := None; lastArgs := None;
                       result := result (onNoteChange s) |} s
  end.

(** Modelled from the spec: [onNoteChange.flush()], the "flush now"
    operation: a pending call runs at once and its timer is dropped. *)
Definition flush (s : Session) : Session :=
  match timerId (onNoteChange s) with
  | Some _ => invoke s
  | None => s
  end.

(** Modelled from the spec: [onNoteChange.cancel()], which drops the
    pending call. *)
Definition cancel (s : Session) : Session :=
  set_debounced {| timerId := None; lastArgs := None;
                   result := result (onNoteChange s) |} s.

(** Modelled from the spec: [ms] milliseconds pass; a timer that falls
    due on the way fires. *)
Definition advance (ms : Z) (s : Session) : Session :=
  let t := (now s + ms)%Z in
  match timerId (onNoteChange s) with
  | Some due => if (due <=? t)%Z then set_now t (invoke s) else set_now t s
  | None => set_now t s
  end.

(** *** Link creation (lines 75-86) *)

(** [onCreateLink(title)]: the address of the created note, or the
    error thrown when nothing was created. *)
Definition onCreateLink (title : string) : Settled string :=
  match createNoteWithTitle title with
  | Rejected e => Rejected e
  | Fulfilled None => Rejected "todo"
  | Fulfilled (Some result) => Fulfilled ("/" ++ Note.id result)
  end.

(** *** Hovering a link (lines 122-147) *)

(** [editorEl.current?.props.readOnly]. *)
Definition is_readOnly (editorEl : option MarkdownEditor) : bool :=
  match editorEl with
  | Some e => readOnly e
  | None => false
  end.

(** [onHoverLink(event)], with [event.target] as [link].  It returns
    [true] on every path; its effect is on the two portal instances. *)
Definition onHoverLink (isBrowser : bool)
    (editorEl : option MarkdownEditor) (link : Element) (p : Portal.t)
    : Portal.t :=
  if negb isBrowser || is_readOnly editorEl
  then p
  else
    let href := getAttribute_href link in
    if JS.array_includes (classList link) "bookmark" then p
    else if JS.truthy_opt href then
      let href := match href with Some h => h | None => "" end in
      if isNoteLink href then
        Portal.set_preview
          (Portal.setAnchor link
             (Portal.setData {| preview_id := Some (JS.slice1 href) |}
                (Portal.close (Portal.preview p)))) p
      else
        Portal.set_linkToolbar
          (Portal.setAnchor link
             (Portal.setData
                {| toolbar_href := href;
                   toolbar_view := option_map view editorEl |}
                (Portal.linkToolbar p))) p
    else
      Portal.set_preview
        (Portal.setData {| preview_id := None |} (Portal.preview p)) p.

(** *** Backlinks (lines 149-162) *)

(** [value.linkIds?.includes(target)]. *)
Definition links_to (target : string) (value : NoteCacheItem) : bool :=
  match linkIds value with
  | Some ids => JS.array_includes ids target
  | None => false
  end.

(** The visitor handed to [noteCache.iterate], for the note [target]. *)
Definition visit (target : string) (value : NoteCacheItem) (sc : Scan)
    : Scan :=
  {| linkNotes :=
       if links_to target value
       then (linkNotes sc ++ [value])%list
       else linkNotes sc;
     visits := S (visits sc) |}.

(** [getBackLinks()]: what the call returns ([None] for [undefined]),
    the [backlinks] state it leaves, and how many snapshots the cache
    handed to the visitor. *)
Definition getBackLinks (note : option NoteModel)
    (noteCache : list NoteCacheItem)
    (backlinks : option (list NoteCacheItem))
    : option (list NoteCacheItem) * option (list NoteCacheItem) * nat :=
  match note with
  | Some n =>
      if JS.truthy (Note.id n) then
        let sc := iterate noteCache (visit (Note.id n))
                    {| linkNotes := []; visits := 0 |} in
        (None, Some (linkNotes sc), visits sc)
      else (Some [], backlinks, 0)
  | None => (Some [], backlinks, 0)
  end.

(** *** Editing (lines 164-236) *)

(** [onEditorChange(value)], with [value()] as a string.  Calling
    [.catch] on the [undefined] a first call returns throws, which the
    surrounding [try] turns into a toast. *)
Definition onEditorChange (value : string) (s : Session) : Session :=
  if isEditing s then
    let (s1, ret) := callback (Partial.of_content value) s in
    match ret with
    | Some (Fulfilled _) => s1
    | Some (Rejected _) => toast "保存失败，请重试" error s1
    | None => toast "处理内容变更失败" error s1
    end
  else s.

(** The effect on [note?.content]. *)
Definition loadContent (s : Session) : Session :=
  match note s with
  | Some n =>
      if JS.truthy_opt (Note.content n)
      then setCurrentContent
             (match Note.content n with Some c => c | None => "" end) s
      else s
  | None => s
  end.

(** The effect on [router.query]. *)
Definition detectNew (s : Session) : Session :=
  if Router.has (Router.query (router s)) "new"
  then setIsEditing true s
  else s.

(** [note?.content]. *)
Definition note_content (s : Session) : option string :=
  match note s with
  | Some n => Note.content n
  | None => None
  end.

(** [handleBeforeUnload(e)]: the message it sets as [e.returnValue] and
    returns, or [None] when it does nothing. *)
Definition handleBeforeUnload (s : Session) : option string :=
  if isEditing s
     && negb (match note_content s with
              | Some c => String.eqb (currentContent s) c
              | None => false
              end)
  then Some "您有未保存的更改，确定要离开吗？"
  else None.

(** [saveNote()]. *)
Definition saveNote (s : Session) : Session :=
  if JS.truthy (currentContent s) then
    let (s1, ret) := callback (Partial.of_content (currentContent s)) s in
    match ret with
    | Some (Rejected _) => toast "保存失败，请重试" error s1
    | Some (Fulfilled _) | None =>
        setIsEditing false (toast "笔记已保存" success s1)
    end
  else s.

(** [toggleEditMode()]. *)
Definition toggleEditMode (s : Session) : Session :=
  setIsEditing (negb (isEditing s)) s.

(** *** Following and uploading (lines 88-118) *)

(** [onClickLink(href)], with [location.origin] as [origin].  A push that
    is rejected is only logged. *)
Definition onClickLink (origin href : string) : Navigation :=
  if isNoteLink (JS.remove_first href origin)
  then RouterPush href true
  else WindowOpen href "_blank".

(** The fetcher of [useFetcher]: what [request] answers, the [url] of the
    result or nothing, and the [error] text the hook holds. *)
Variable request : UploadRequest -> Settled (option string).
Variable fetch_error : string.

(** [`/api/upload?id=${id}`]. *)
Definition upload_address (id : option string) : string :=
  "/api/upload?id=" ++ match id with
                       | Some i => i
                       | None => "undefined"
                       end.

(** [onUploadImage(file, id)]: how the call settles, and the toasts it
    shows. *)
Definition onUploadImage (file : nat) (id : option string)
    : Settled string * list Effect :=
  match request {| upload_method := "POST";
                   upload_url := upload_address id;
                   upload_file := file |} with
  | Rejected e => (Rejected e, [])
  | Fulfilled None => (Rejected fetch_error, [Toast fetch_error error])
  | Fulfilled (Some url) => (Fulfilled url, [])
  end.

End useEditor.

End Editor.

(** ** The global error handlers, [RouteErrorHandler] *)

Module RouteErrorHandler.

(** An error as the handlers read it: [error.message] may be missing. *)
Record RouterError : Type := mkError
  { message : option string }.

(** The arguments of [window.onerror]; the first is a string or an
    [Event] (kept as the number of the event). *)
Record ErrorArgs : Type := mkArgs
  { arg_message : string + nat;
    arg_source : option string;
    arg_lineno : option Z;
    arg_colno : option Z;
    arg_error : option RouterError }.

(** A [PromiseRejectionEvent]: [event.reason]. *)
Record PromiseRejectionEvent : Type := mkRejection
  { reason : option RouterError }.

Inductive Console : Type :=
| console_log
| console_warn (msg : string).

(** What one call of a handler did: the value it returned, what it
    logged, whether it called [event.preventDefault()], and whether it
    handed the error to the handler that was installed before. *)
Record Outcome : Type := mkOutcome
  { returned : bool;
    console : list Console;
    defaultPrevented : bool;
    delegated : bool }.

(** The three messages of a cancelled navigation (lines 72-74, 103-105). *)
Definition isRouteCancelled (msg : string) : bool :=
  JS.includes msg "Route Cancelled"
  || JS.includes msg "Cancel rendering route"
  || JS.includes msg "Loading initial props cancelled".

(** [if (original) return original.call(window, ...); return false]. *)
Definition pass_on {A : Type} (original : option (A -> bool)) (a : A)
    : Outcome :=
  match original with
  | Some h => {| returned := h a; console := [];
                 defaultPrevented := false; delegated := true |}
  | None => {| returned := false; console := [];
               defaultPrevented := false; delegated := false |}
  end.

(** The replacement of [window.onerror] (lines 62-89);
    [__EDIT_MODE_TOGGLE__] is [window.__EDIT_MODE_TOGGLE__]. *)
Definition onerror (__EDIT_MODE_TOGGLE__ : bool)
    (originalErrorHandler : option (ErrorArgs -> bool)) (a : ErrorArgs)
    : Outcome :=
  if __EDIT_MODE_TOGGLE__ then
    {| returned := false; console := [console_log];
       defaultPrevented := false; delegated := false |}
  else
    match arg_message a with
    | inl m =>
        if isRouteCancelled m
        then {| returned := true; console := [console_warn m];
                defaultPrevented := false; delegated := false |}
        else pass_on originalErrorHandler a
    | inr _ => pass_on originalErrorHandler a
    end.

(** [error?.message], for [error = event.reason]. *)
Definition reason_message (e : PromiseRejectionEvent) : option string :=
  match reason e with
  | Some err => message err
  | None => None
  end.

(** The replacement of [window.onunhandledrejection] (lines 93-120). *)
Definition onunhandledrejection (__EDIT_MODE_TOGGLE__ : bool)
    (originalUnhandledRejection : option (PromiseRejectionEvent -> bool))
    (event : PromiseRejectionEvent) : Outcome :=
  if __EDIT_MODE_TOGGLE__ then
    {| returned := false; console := [console_log];
       defaultPrevented := false; delegated := false |}
  else
    match reason_message event with
    | Some m =>
        if isRouteCancelled m
        then {| returned := true; console := [console_warn m];
                defaultPrevented := true; delegated := false |}
        else pass_on originalUnhandledRejection event
    | None => pass_on originalUnhandledRejection event
    end.

(** What [handleRouteError] logged. *)
Inductive RouteLog : Type :=
| route_log
| route_warn (msg : string)
| route_error.

(** [handleRouteError(error)] (lines 27-53), the listener for
    routeChangeError: the value it returns, the [error.cancelled] it
    leaves ([cancelled] is the one it found), and what it logged. *)
Definition handleRouteError (__EDIT_MODE_TOGGLE__ : bool)
    (error : RouterError) (cancelled : option bool)
    : bool * option bool * RouteLog :=
  if __EDIT_MODE_TOGGLE__ then (false, cancelled, route_log)
  else
    match message error with
    | Some m =>
        if isRouteCancelled m then (true, Some true, route_warn m)
        else (false, cancelled, route_error)
    | None => (false, cancelled, route_error)
    end.

End RouteErrorHandler.

(** ** Scripts of calls and sample data *)

(** One step of a script against the buffer: a call of
    [onNoteChange.callback], or time passing. *)
Inductive Step : Type :=
| Call (data : Partial.t)
| Wait (ms : Z).

(** Where a run of the wrapped function (lines 57-71) is suspended at its
    first await: at [await createNote(n)] or at [await updateNote(data)]. *)
Inductive Started : Type :=
| Creating (n : Partial.t)
| Updating (data : Partial.t).

(** The call a run has made when it is suspended. *)
Definition started_call (st : Started) : Editor.Effect :=
  match st with
  | Creating n => Editor.CreateNote n
  | Updating data => Editor.UpdateNote data
  end.

Section Scripts.

Variable ROOT_ID : string.
Variable createNote : Partial.t -> Settled (option NoteModel).
Variable updateNote : Partial.t -> Settled unit.

Fixpoint run (steps : list Step) (s : Editor.Session) : Editor.Session :=
  match steps with
  | [] => s
  | Call data :: rest => run rest (fst (Editor.callback data s))
  | Wait ms :: rest =>
      run rest (Editor.advance ROOT_ID createNote updateNote ms s)
  end.

(** Calls in quick succession: each patch with the pause after it. *)
Definition burst (calls : list (Partial.t * Z)) : list Step :=
  flat_map (fun c => [Call (fst c); Wait (snd c)]) calls.

(** The buffer dispatches one commit for [data]: the patch is handed in and
    its timer runs out. *)
Definition dispatch (data : Partial.t) (s : Editor.Session) : Editor.Session :=
  Editor.invoke ROOT_ID createNote updateNote (fst (Editor.callback data s)).

(** The note a commit for [data] sends to [createNote]: the bound note with
    the patch over it, under the container the address names. *)
Definition created (data : Partial.t) (note : option NoteModel) (r : Router.t)
    : Partial.t :=
  Partial.spread (Partial.of_note note)
    (Partial.set_pid (JS.or_else (Router.get (Router.query r) "pid") ROOT_ID)
       data).

(** The wrapped function up to its first await (lines 58-62, 69): the
    branch is taken, on the router as the run finds it, and the call is
    made. *)
Definition commit_start (data : Partial.t) (note : option NoteModel)
    (r : Router.t) : Started :=
  if Router.has (Router.query r) "new"
  then Creating (created data note r)
  else Updating data.

(** The rest of the wrapped function (lines 62-67, 69), run when the
    awaited call has settled, on the router as it is by then: what it
    does, the router it leaves, and how the promise of the run settles.
    [navigate url] is how the promise of [router.replace(url, ...)] settles;
    a replacement that is rejected leaves the location where it was. *)
Definition commit_finish (navigate : string -> Settled unit) (st : Started)
    (r : Router.t) : list Editor.Effect * Router.t * Settled unit :=
  match st with
  | Creating n =>
      match createNote n with
      | Rejected e => ([], r, Rejected e)
      | Fulfilled item =>
          if String.eqb (Router.asPath r) (Editor.noteUrl item)
          then ([], r, Fulfilled tt)
          else match navigate (Editor.noteUrl item) with
               | Fulfilled _ =>
                   ([Editor.RouterReplace (Editor.noteUrl item) true],
                    Router.replace (Editor.noteUrl item) r, Fulfilled tt)
               | Rejected e =>
                   ([Editor.RouterReplace (Editor.noteUrl item) true],
                    r, Rejected e)
               end
      end
  | Updating data => ([], r, updateNote data)
  end.

(** Two runs that overlap: the second starts while the first is still
    suspended, then the first is finished, then the second. *)
Definition overlapped (navigate : string -> Settled unit)
    (d1 d2 : Partial.t) (note : option NoteModel) (r : Router.t)
    : list Editor.Effect * Router.t :=
  let st1 := commit_start d1 note r in
  let st2 := commit_start d2 note r in
  let '(e1, r1, _) := commit_finish navigate st1 r in
  let '(e2, r2, _) := commit_finish navigate st2 r1 in
  (started_call st1 :: started_call st2 :: e1 ++ e2, r2).

(** A patch is waiting in [s], with the whole delay still to run. *)
Definition armed (data : Partial.t) (s : Editor.Session) : Prop :=
  Editor.timerId (Editor.onNoteChange s) = Some (Editor.now s + Editor.wait)%Z
  /\ Editor.lastArgs (Editor.onNoteChange s) = Some data.

(** Modelled from the spec: [saveNote] in the words of sections 4.1 and
    4.2, which "commits it immediately (bypassing debounce)" through the
    "flush now" operation and then reports how that commit went.  It is
    only compared with [Editor.saveNote], the one of the source. *)
Definition saveNote_flushing (s : Editor.Session) : Editor.Session :=
  if JS.truthy (Editor.currentContent s) then
    let s1 := Editor.flush ROOT_ID createNote updateNote
                (fst (Editor.callback
                        (Partial.of_content (Editor.currentContent s)) s)) in
    match Editor.result (Editor.onNoteChange s1) with
    | Some (Rejected _) => Editor.toast "保存失败，请重试" Editor.error s1
    | Some (Fulfilled _) | None =>
        Editor.setIsEditing false
          (Editor.toast "笔记已保存" Editor.success s1)
    end
  else s.

End Scripts.

(** The persistence calls in a trace. *)
Fixpoint persistence_calls (tr : list Editor.Effect) : list Editor.Effect :=
  match tr with
  | [] => []
  | Editor.CreateNote n :: r => Editor.CreateNote n :: persistence_calls r
  | Editor.UpdateNote d :: r => Editor.UpdateNote d :: persistence_calls r
  | _ :: r => persistence_calls r
  end.

(** Change events handled one after the other. *)
Definition edits (values : list string) (s : Editor.Session)
    : Editor.Session :=
  fold_left (fun s v => Editor.onEditorChange v s) values s.

(** A note that is already stored, opened at its own address. *)
Definition stored_note : NoteModel :=
  {| Note.id := "n1"; Note.title := "Todo"; Note.pid := None;
     Note.content := Some "old" |}.

Definition at_note : Router.t :=
  {| Router.query := []; Router.asPath := "/n1" |}.

(** The address of a note being created under the container [p1]. *)
Definition at_new : Router.t :=
  {| Router.query := [("new", ""); ("pid", "p1")];
     Router.asPath := "/n2?new&pid=p1" |}.

(** A session on a note that is being created, nothing pending. *)
Definition creating : Editor.Session :=
  {| Editor.isEditing := true; Editor.currentContent := "";
     Editor.note := Some {| Note.id := "n2"; Note.title := "";
                            Note.pid := None; Note.content := None |};
     Editor.router := at_new; Editor.now := 0%Z;
     Editor.onNoteChange := Editor.idle; Editor.trace := [] |}.

(** An editing session on [stored_note] with the draft [draft], nothing
    pending. *)
Definition editing (draft : string) : Editor.Session :=
  {| Editor.isEditing := true; Editor.currentContent := draft;
     Editor.note := Some stored_note; Editor.router := at_note;
     Editor.now := 0%Z; Editor.onNoteChange := Editor.idle;
     Editor.trace := [] |}.

(** The same session when it is only being read. *)
Definition reading (draft : string) : Editor.Session :=
  Editor.setIsEditing false (editing draft).

(** A persistence layer that stores what it is given, and one that fails. *)
Definition create_ok (n : Partial.t) : Settled (option NoteModel) :=
  Fulfilled
    (Some {| Note.id := match Partial.id n with Some i => i | None => "n2" end;
             Note.title := ""; Note.pid := Partial.pid n;
             Note.content := Partial.content n |}).

Definition update_ok (_ : Partial.t) : Settled unit := Fulfilled tt.

Definition update_fails (_ : Partial.t) : Settled unit :=
  Rejected "Failed to fetch".

Definition create_fails (_ : Partial.t) : Settled (option NoteModel) :=
  Rejected "Failed to fetch".


(** A portal with nothing shown, an editor that can be written to, and a
    link element with the given [href] attribute. *)
Definition closed_portal : Portal.t :=
  {| Portal.preview := Portal.mkInstance None None;
     Portal.linkToolbar := Portal.mkInstance None None |}.

Definition writable : option MarkdownEditor :=
  Some {| readOnly := false; view := 7 |}.

Definition anchor_tag (href : option string) : Element :=
  {| node := 1; getAttribute_href := href; classList := ["link"] |}.

(** A cache of three snapshots, the first and the last linking to n1. *)
Definition sample_cache : list NoteCacheItem :=
  [ {| cache_id := "a"; rawContent := None; linkIds := Some ["n1"; "x"] |};
    {| cache_id := "b"; rawContent := None; linkIds := None |};
    {| cache_id := "c"; rawContent := None; linkIds := Some ["n1"] |} ].

(** Modelled from the spec: a test for "the internal note-link address
    pattern" ([isNoteLink] of libs/shared/note, not under src/): a slash
    followed by a non-empty run of characters other than a slash. *)
Definition isNoteLink_path (href : string) : bool :=
  match href with
  | String "/" rest => JS.truthy rest && negb (JS.includes rest "/")
  | _ => false
  end.

(** * Properties *)

Local Open Scope list_scope.

(** ** The debounced buffer *)

Section BufferFacts.

Variable ROOT_ID : string.
Variable createNote : Partial.t -> Settled (option NoteModel).
Variable updateNote : Partial.t -> Settled unit.

Local Abbreviation commit := (Editor.commit ROOT_ID createNote updateNote).
Local Abbreviation invoke := (Editor.invoke ROOT_ID createNote updateNote).
Local Abbreviation advance := (Editor.advance ROOT_ID createNote updateNote).
Local Abbreviation run := (run ROOT_ID createNote updateNote).

Lemma commits_app (a b : list Editor.Effect) :
  Editor.commits (a ++ b) = Editor.commits a ++ Editor.commits b.
Proof.
  induction a as [|e a IH]; simpl; [reflexivity|].
  destruct e; simpl; rewrite IH; reflexivity.
Qed.

(** The wrapped function never calls itself. *)
Lemma commit_effects data note r :
  Editor.commits (fst (fst (commit data note r))) = [].
Proof.
  unfold Editor.commit.
  destruct (Router.has _ _); [|reflexivity].
  destruct (createNote _) as [item|e]; [|reflexivity].
  destruct (String.eqb _ _); reflexivity.
Qed.

Lemma invoke_commits s data :
  Editor.lastArgs (Editor.onNoteChange s) = Some data ->
  Editor.commits (Editor.trace (invoke s))
  = Editor.commits (Editor.trace s) ++ [data].
Proof.
  intros H. unfold Editor.invoke. rewrite H.
  pose proof (commit_effects data (Editor.note s) (Editor.router s)) as Hc.
  destruct (commit data (Editor.note s) (Editor.router s)) as [[es r] out].
  simpl in *. rewrite commits_app. simpl. rewrite Hc. reflexivity.
Qed.

Lemma invoke_idle s data :
  Editor.lastArgs (Editor.onNoteChange s) = Some data ->
  Editor.timerId (Editor.onNoteChange (invoke s)) = None.
Proof.
  intros H. unfold Editor.invoke. rewrite H.
  destruct (commit data (Editor.note s) (Editor.router s)) as [[es r] out].
  reflexivity.
Qed.

Lemma advance_early s due ms :
  Editor.timerId (Editor.onNoteChange s) = Some due ->
  (Editor.now s + ms < due)%Z ->
  advance ms s = Editor.set_now (Editor.now s + ms) s.
Proof.
  intros Ht Hlt. unfold Editor.advance. rewrite Ht.
  destruct (Z.leb_spec due (Editor.now s + ms)); [lia|reflexivity].
Qed.

Lemma advance_due s due ms :
  Editor.timerId (Editor.onNoteChange s) = Some due ->
  (due <= Editor.now s + ms)%Z ->
  advance ms s = Editor.set_now (Editor.now s + ms) (invoke s).
Proof.
  intros Ht Hle. unfold Editor.advance. rewrite Ht.
  destruct (Z.leb_spec due (Editor.now s + ms)); [reflexivity|lia].
Qed.

Lemma callback_armed data s : armed data (fst (Editor.callback data s)).
Proof. split; reflexivity. Qed.

Lemma run_burst_cons d gap calls steps s :
  run (burst ((d, gap) :: calls) ++ steps) s
  = run (burst calls ++ steps) (advance gap (fst (Editor.callback d s))).
Proof. reflexivity. Qed.

(** Calls less than the delay apart commit nothing, and leave the last
    patch waiting. *)
Lemma burst_pending calls : forall s last,
  Forall (fun c => 0 <= snd c < Editor.wait)%Z calls ->
  let s1 := run (burst calls ++ [Call last]) s in
  Editor.commits (Editor.trace s1) = Editor.commits (Editor.trace s)
  /\ armed last s1.
Proof.
  induction calls as [|[d gap] calls IH]; intros s last Hall.
  - split; [reflexivity|apply callback_armed].
  - inversion Hall as [|c cs Hgap Hrest]; subst. simpl in Hgap.
    cbv zeta. rewrite run_burst_cons.
    rewrite (advance_early _ (Editor.now s + Editor.wait)%Z gap);
      [|reflexivity|simpl; lia].
    destruct (IH (Editor.set_now
                    (Editor.now (fst (Editor.callback d s)) + gap)%Z
                    (fst (Editor.callback d s))) last Hrest) as [Hc Ha].
    split; [rewrite Hc; reflexivity|exact Ha].
Qed.

(** Once a patch waits, nothing runs before the delay is over, and the
    patch runs, once, when it is. *)
Lemma armed_elapse data s :
  armed data s ->
  (forall ms, (0 <= ms < Editor.wait)%Z ->
     Editor.commits (Editor.trace (advance ms s))
     = Editor.commits (Editor.trace s))
  /\ (forall ms, (Editor.wait <= ms)%Z ->
        Editor.commits (Editor.trace (advance ms s))
        = Editor.commits (Editor.trace s) ++ [data]
        /\ Editor.timerId (Editor.onNoteChange (advance ms s)) = None).
Proof.
  intros [Ht Ha]. split; intros ms Hms.
  - rewrite (advance_early _ _ ms Ht); [reflexivity|lia].
  - rewrite (advance_due _ _ ms Ht); [|lia]. simpl.
    split; [apply invoke_commits|apply invoke_idle with data]; exact Ha.
Qed.

(** C2: calls of the debounced buffer that follow one another within the
    500 ms window commit nothing while the window is open; when the timer
    runs out exactly one commit executes, and it carries the patch of the
    last call. The patches before it are never committed. *)
Theorem onNoteChange_trailing_edge
  (s : Editor.Session) (calls : list (Partial.t * Z)) (last : Partial.t) :
(Forall (fun c => 0 <= snd c < 500) calls)%Z ->
let s1 := run (burst calls ++ [Call last]) s in
Editor.commits (Editor.trace s1) = Editor.commits (Editor.trace s)
/\ (forall ms, (0 <= ms < 500)%Z ->
      Editor.commits (Editor.trace (advance ms s1))
      = Editor.commits (Editor.trace s))
/\ (forall ms, (500 <= ms)%Z ->
      Editor.commits (Editor.trace (advance ms s1))
      = Editor.commits (Editor.trace s) ++ [last]
      /\ Editor.timerId (Editor.onNoteChange (advance ms s1)) = None).
Proof.
intros Hall s1.
destruct (burst_pending calls s last Hall) as [Hc Ha]. fold s1 in Hc, Ha.
destruct (armed_elapse last s1 Ha) as [Hearly Hdue].
split; [exact Hc|]. split; intros ms Hms.
- rewrite (Hearly ms Hms). exact Hc.
- destruct (Hdue ms Hms) as [H1 H2]. rewrite H1, Hc. split; [reflexivity|exact H2].
Qed.

End BufferFacts.


Lemma onNoteChange_trailing_edge_witness :
(Forall (fun c => 0 <= snd c < 500)
   [(Partial.of_content "a", 100); (Partial.of_content "ab", 200)])%Z
/\ Editor.commits
     (Editor.trace
        (Editor.advance "root" create_ok update_ok 500
           (run "root" create_ok update_ok
              (burst [(Partial.of_content "a", 100%Z);
                      (Partial.of_content "ab", 200%Z)]
               ++ [Call (Partial.of_content "abc")])
              (editing ""))))
   = [Partial.of_content "abc"].
Proof.
assert (H : (Forall (fun c => 0 <= snd c < 500)
               [(Partial.of_content "a", 100);
                (Partial.of_content "ab", 200)])%Z)
  by (repeat constructor; simpl; lia).
split; [exact H|].
apply (proj2 (proj2 (onNoteChange_trailing_edge "root" create_ok update_ok
                       (editing "") _ (Partial.of_content "abc") H)) 500%Z).
lia.
Defined.

(** ** The session controller *)

(** With the editor closed, a change event leaves the session as it is. *)
Lemma onEditorChange_closed value s :
Editor.isEditing s = false -> Editor.onEditorChange value s = s.
Proof. intros H. unfold Editor.onEditorChange. rewrite H. reflexivity. Qed.

(** With the editor open, a change event hands its patch to the buffer. *)
Lemma onEditorChange_open value s :
Editor.isEditing s = true ->
armed (Partial.of_content value) (Editor.onEditorChange value s)
/\ Editor.commits (Editor.trace (Editor.onEditorChange value s))
   = Editor.commits (Editor.trace s).
Proof.
intros H. unfold Editor.onEditorChange. rewrite H. simpl.
destruct (Editor.result (Editor.onNoteChange s)) as [[u|e]|];
  (split; [split; reflexivity|]); simpl;
  rewrite ?commits_app; simpl; rewrite ?app_nil_r; reflexivity.
Qed.

(** C10: a change event that arrives while [isEditing] is false schedules
    nothing with the buffer and leaves every field of the session as it
    was; only with [isEditing] true is the patch handed to the buffer. *)
Theorem onEditorChange_gated (value : string) (s : Editor.Session) :
(Editor.isEditing s = false -> Editor.onEditorChange value s = s)
/\ (Editor.onEditorChange value s <> s -> Editor.isEditing s = true)
/\ (Editor.isEditing s = true ->
    armed (Partial.of_content value) (Editor.onEditorChange value s)).
Proof.
split; [apply onEditorChange_closed|]. split.
- intros Hne. destruct (Editor.isEditing s) eqn:E; [reflexivity|].
  exfalso. apply Hne. apply onEditorChange_closed. exact E.
- intros H. apply onEditorChange_open. exact H.
Qed.

Lemma onEditorChange_gated_witness :
Editor.isEditing (Editor.advance "root" create_ok update_ok 100
                    (fst (Editor.callback (Partial.of_content "a")
                            (reading "a")))) = false
/\ Editor.onEditorChange "ab"
     (Editor.advance "root" create_ok update_ok 100
        (fst (Editor.callback (Partial.of_content "a") (reading "a"))))
   = Editor.advance "root" create_ok update_ok 100
       (fst (Editor.callback (Partial.of_content "a") (reading "a"))).
Proof.
split; [reflexivity|].
apply (proj1 (onEditorChange_gated "ab" _)). reflexivity.
Defined.

(** The guard on unload fires exactly when the session is in edit mode and
    the draft is not the content of the bound note; a note without content
    is the content of no draft. *)
Theorem handleBeforeUnload_guard (s : Editor.Session) :
Editor.handleBeforeUnload s <> None
<-> (Editor.isEditing s = true
     /\ Editor.note_content s <> Some (Editor.currentContent s)).
Proof.
unfold Editor.handleBeforeUnload.
destruct (Editor.isEditing s); simpl.
- destruct (Editor.note_content s) as [c|]; simpl.
  + destruct (String.eqb_spec (Editor.currentContent s) c) as [E|N]; simpl.
    * split; [intros H; exfalso; apply H; reflexivity|].
      intros [_ H]. exfalso. apply H. rewrite E. reflexivity.
    * split; [|discriminate]. intros _. split; [reflexivity|].
      intros H. apply N. inversion H. reflexivity.
  + split; [|discriminate]. intros _. split; [reflexivity|discriminate].
- split; [intros H; exfalso; apply H; reflexivity|].
  intros [H _]. discriminate.
Qed.

Lemma handleBeforeUnload_guard_witness :
(Editor.isEditing (editing "new text") = true
 /\ Editor.note_content (editing "new text")
    <> Some (Editor.currentContent (editing "new text")))
/\ Editor.handleBeforeUnload (editing "new text") <> None
/\ Editor.handleBeforeUnload (editing "old") = None
/\ Editor.handleBeforeUnload (reading "new text") = None.
Proof.
assert (H : Editor.isEditing (editing "new text") = true
            /\ Editor.note_content (editing "new text")
               <> Some (Editor.currentContent (editing "new text")))
  by (split; [reflexivity|discriminate]).
split; [exact H|]. split.
- apply (proj2 (handleBeforeUnload_guard (editing "new text"))). exact H.
- split; reflexivity.
Defined.


(** With an empty draft [saveNote] does nothing at all. *)
Lemma saveNote_empty s :
Editor.currentContent s = "" -> Editor.saveNote s = s.
Proof. intros H. unfold Editor.saveNote. rewrite H. reflexivity. Qed.

(** With a draft, [saveNote] reaches the buffer through the same entry as a
    change event: the patch is left waiting for the timer, and no commit
    runs during the call. *)
Lemma saveNote_schedules s :
Editor.currentContent s <> "" ->
armed (Partial.of_content (Editor.currentContent s)) (Editor.saveNote s)
/\ Editor.onNoteChange (Editor.saveNote s)
   = Editor.onNoteChange
       (Editor.onEditorChange (Editor.currentContent s)
          (Editor.setIsEditing true s))
/\ Editor.commits (Editor.trace (Editor.saveNote s))
   = Editor.commits (Editor.trace s).
Proof.
intros H. unfold Editor.saveNote, Editor.onEditorChange.
destruct (Editor.currentContent s) as [|c r] eqn:E; [contradiction|].
simpl.
destruct (Editor.result (Editor.onNoteChange s)) as [[u|e]|]; simpl;
  rewrite ?commits_app; simpl; rewrite ?app_nil_r;
  (split; [split; reflexivity|split; reflexivity]).
Qed.

(** C1, at a session with the draft "draft", nothing pending and a
    persistence layer that rejects the update: [saveNote] commits nothing
    during the call; it announces success and leaves edit mode at once, the
    patch waits 500 ms for the timer, and when the update is then rejected
    no failure is announced and edit mode stays off.  Saving through the
    flush operation, as the specification words it, would have run the
    update during the call, announced the failure and kept edit mode on. *)
Theorem saveNote_defers_commit :
let s := Editor.saveNote (editing "draft") in
let late := Editor.advance "root" create_ok update_fails 500 s in
Editor.trace s = [Editor.Toast "笔记已保存" Editor.success]
/\ Editor.isEditing s = false
/\ Editor.onNoteChange s
   = {| Editor.timerId := Some 500%Z;
        Editor.lastArgs := Some (Partial.of_content "draft");
        Editor.result := None |}
/\ Editor.trace late
   = [Editor.Toast "笔记已保存" Editor.success;
      Editor.Invoked (Partial.of_content "draft");
      Editor.UpdateNote (Partial.of_content "draft")]
/\ Editor.result (Editor.onNoteChange late)
   = Some (Rejected "Failed to fetch")
/\ Editor.isEditing late = false
/\ saveNote_flushing "root" create_ok update_fails (editing "draft")
   = {| Editor.isEditing := true; Editor.currentContent := "draft";
        Editor.note := Some stored_note; Editor.router := at_note;
        Editor.now := 0%Z;
        Editor.onNoteChange :=
          {| Editor.timerId := None; Editor.lastArgs := None;
             Editor.result := Some (Rejected "Failed to fetch") |};
        Editor.trace :=
          [Editor.Invoked (Partial.of_content "draft");
           Editor.UpdateNote (Partial.of_content "draft");
           Editor.Toast "保存失败，请重试" Editor.error] |}.
Proof. repeat split. Qed.


(** After [saveNote], further change events within the window still end in
    one commit: the patch of the last call. *)
Lemma saveNote_then_edits_one_commit
  (ROOT_ID : string) (createNote : Partial.t -> Settled (option NoteModel))
  (updateNote : Partial.t -> Settled unit)
  (s : Editor.Session) (c : string) (edits : list (Partial.t * Z)) :
(Forall (fun e => 0 <= snd e < 500) edits)%Z ->
let s1 := run ROOT_ID createNote updateNote
            (burst edits ++ [Call (Partial.of_content c)]) (Editor.saveNote s) in
Editor.commits
  (Editor.trace (Editor.advance ROOT_ID createNote updateNote 500 s1))
= Editor.commits (Editor.trace (Editor.saveNote s)) ++ [Partial.of_content c].
Proof.
intros Hall s1.
destruct (burst_pending ROOT_ID createNote updateNote edits
            (Editor.saveNote s) (Partial.of_content c) Hall) as [Hc Ha].
fold s1 in Hc, Ha.
destruct (armed_elapse ROOT_ID createNote updateNote _ s1 Ha) as [_ Hdue].
destruct (Hdue 500%Z) as [H _]; [unfold Editor.wait; lia|].
rewrite H, Hc. reflexivity.
Qed.




(** ** Commit routing *)

Section CommitFacts.

Variable ROOT_ID : string.
Variable createNote : Partial.t -> Settled (option NoteModel).
Variable updateNote : Partial.t -> Settled unit.

Local Abbreviation commit := (Editor.commit ROOT_ID createNote updateNote).
Local Abbreviation dispatch := (dispatch ROOT_ID createNote updateNote).
Local Abbreviation created := (created ROOT_ID).

(** The container a created note is put under. *)
Lemma created_pid data note r :
Partial.pid (created data note r)
= Some (JS.or_else (Router.get (Router.query r) "pid") ROOT_ID).
Proof. reflexivity. Qed.

Lemma commit_create data note r :
Router.has (Router.query r) "new" = true ->
exists rest,
  fst (fst (commit data note r))
  = Editor.CreateNote (created data note r) :: rest
  /\ forall d, ~ In (Editor.UpdateNote d) (fst (fst (commit data note r))).
Proof.
intros H. unfold Editor.commit. rewrite H. fold (created data note r).
destruct (createNote (created data note r)) as [item|e].
- destruct (String.eqb _ _); eexists; (split; [reflexivity|]);
    intros d F; simpl in F; intuition discriminate.
- eexists. split; [reflexivity|].
  intros d F; simpl in F; intuition discriminate.
Qed.

Lemma commit_created data note r item :
Router.has (Router.query r) "new" = true ->
createNote (created data note r) = Fulfilled item ->
commit data note r
= if String.eqb (Router.asPath r) (Editor.noteUrl item)
  then ([Editor.CreateNote (created data note r)], r, Fulfilled tt)
  else ([Editor.CreateNote (created data note r);
         Editor.RouterReplace (Editor.noteUrl item) true],
        Router.replace (Editor.noteUrl item) r, Fulfilled tt).
Proof.
intros H Hc. unfold Editor.commit. rewrite H.
fold (created data note r). rewrite Hc. reflexivity.
Qed.

Lemma commit_update data note r :
Router.has (Router.query r) "new" = false ->
commit data note r = ([Editor.UpdateNote data], r, updateNote data).
Proof. intros H. unfold Editor.commit. rewrite H. reflexivity. Qed.

Lemma dispatch_update data s :
Router.has (Router.query (Editor.router s)) "new" = false ->
Editor.trace (dispatch data s)
= Editor.trace s ++ [Editor.Invoked data; Editor.UpdateNote data]
/\ Editor.router (dispatch data s) = Editor.router s.
Proof.
intros H. unfold dispatch, Editor.invoke. simpl.
rewrite (commit_update data _ _ H). split; reflexivity.
Qed.

(** Once the address carries no new-note intent, every commit updates. *)
Lemma dispatch_updates later : forall s,
Router.has (Router.query (Editor.router s)) "new" = false ->
Editor.trace (fold_left (fun s d => dispatch d s) later s)
= Editor.trace s
  ++ flat_map (fun d => [Editor.Invoked d; Editor.UpdateNote d]) later.
Proof.
induction later as [|d later IH]; intros s H; simpl.
- rewrite app_nil_r. reflexivity.
- destruct (dispatch_update d s H) as [Ht Hr].
  rewrite IH; [|rewrite Hr; exact H].
  rewrite Ht, <- app_assoc. reflexivity.
Qed.

(** The first commit of a new-note session creates and moves the address. *)
Lemma dispatch_create data s item :
Router.consistent (Editor.router s) ->
Router.has (Router.query (Editor.router s)) "new" = true ->
createNote (created data (Editor.note s) (Editor.router s)) = Fulfilled item ->
Router.has (Router.query_of_url (Editor.noteUrl item)) "new" = false ->
Editor.trace (dispatch data s)
= Editor.trace s
  ++ [Editor.Invoked data;
      Editor.CreateNote (created data (Editor.note s) (Editor.router s));
      Editor.RouterReplace (Editor.noteUrl item) true]
/\ Editor.router (dispatch data s)
   = Router.replace (Editor.noteUrl item) (Editor.router s).
Proof.
intros Hwf Hnew Hc Hplain. unfold dispatch, Editor.invoke. simpl.
rewrite (commit_created data _ _ item Hnew Hc).
destruct (String.eqb_spec (Router.asPath (Editor.router s))
            (Editor.noteUrl item)) as [E|N].
- exfalso. unfold Router.consistent in Hwf.
  rewrite Hwf, E, Hplain in Hnew. discriminate.
- split; reflexivity.
Qed.

Local Abbreviation commit_start := (commit_start ROOT_ID).
Local Abbreviation commit_finish := (commit_finish createNote updateNote).
Local Abbreviation overlapped :=
  (overlapped ROOT_ID createNote updateNote).

(** A run that is not interrupted is its two parts one after the other. *)
Lemma commit_in_two_parts data note r :
commit data note r
= let st := commit_start data note r in
  (started_call st
   :: fst (fst (commit_finish (fun _ => Fulfilled tt) st r)),
   snd (fst (commit_finish (fun _ => Fulfilled tt) st r)),
   snd (commit_finish (fun _ => Fulfilled tt) st r)).
Proof.
unfold Editor.commit, commit_start, commit_finish.
destruct (Router.has _ _); [|reflexivity]. fold (created data note r).
cbv zeta. cbn [started_call].
destruct (createNote (created data note r)) as [item|e]; [|reflexivity].
destruct (String.eqb _ _); reflexivity.
Qed.

(** The creating commit moves an address that is not the canonical one. *)
Lemma dispatch_create_moved data s item :
Router.has (Router.query (Editor.router s)) "new" = true ->
createNote (created data (Editor.note s) (Editor.router s)) = Fulfilled item ->
Router.asPath (Editor.router s) <> Editor.noteUrl item ->
Editor.trace (dispatch data s)
= Editor.trace s
  ++ [Editor.Invoked data;
      Editor.CreateNote (created data (Editor.note s) (Editor.router s));
      Editor.RouterReplace (Editor.noteUrl item) true]
/\ Editor.router (dispatch data s)
   = Router.replace (Editor.noteUrl item) (Editor.router s).
Proof.
intros Hnew Hc Hne. unfold dispatch, Editor.invoke. simpl.
rewrite (commit_created data _ _ item Hnew Hc).
destruct (String.eqb_spec (Router.asPath (Editor.router s))
            (Editor.noteUrl item)) as [E|N]; [contradiction|].
split; reflexivity.
Qed.

(** A creating commit whose createNote is rejected leaves the address. *)
Lemma dispatch_create_rejected data s e :
Router.has (Router.query (Editor.router s)) "new" = true ->
createNote (created data (Editor.note s) (Editor.router s)) = Rejected e ->
Editor.trace (dispatch data s)
= Editor.trace s
  ++ [Editor.Invoked data;
      Editor.CreateNote (created data (Editor.note s) (Editor.router s))]
/\ Editor.router (dispatch data s) = Editor.router s
/\ Editor.note (dispatch data s) = Editor.note s.
Proof.
intros Hnew Hc. unfold dispatch, Editor.invoke, Editor.commit. simpl.
rewrite Hnew. fold (created data (Editor.note s) (Editor.router s)).
rewrite Hc. repeat split.
Qed.

(** C3, as the source has it: a commit that starts while the address
    carries the new-note intent calls createNote, never updateNote, on the
    bound note with the patch over it and with the parent container of the
    address, or ROOT_ID when the address names none or an empty one; when
    the created note comes back and the address is not yet its canonical
    one, the address is replaced by it, shallowly, and is left alone when it
    already is.  A commit that starts without the intent calls updateNote
    on the patch.  The test is made anew when each commit starts, on the
    address alone: after a creating commit whose createNote was fulfilled
    has replaced the address by one without the intent, every later commit
    updates; after a creating commit whose createNote was rejected, or
    whose replacement was rejected, the address is as it was and the next
    commit creates again; and of two runs that overlap under the intent,
    both create. *)
Theorem onNoteChange_commit_routing (data : Partial.t) (s : Editor.Session) :
let note := Editor.note s in
let r := Editor.router s in
let n := created data note r in
(Router.has (Router.query r) "new" = true ->
   (exists rest,
      fst (fst (commit data note r)) = Editor.CreateNote n :: rest
      /\ forall d, ~ In (Editor.UpdateNote d) (fst (fst (commit data note r))))
   /\ ((Router.get (Router.query r) "pid" = None
        \/ Router.get (Router.query r) "pid" = Some "") ->
       Partial.pid n = Some ROOT_ID)
   /\ (forall p, Router.get (Router.query r) "pid" = Some p -> p <> "" ->
        Partial.pid n = Some p)
   /\ (forall item, createNote n = Fulfilled (Some item) ->
        (Router.asPath r <> Editor.noteUrl (Some item) ->
         commit data note r
         = ([Editor.CreateNote n;
             Editor.RouterReplace (Editor.noteUrl (Some item)) true],
            Router.replace (Editor.noteUrl (Some item)) r, Fulfilled tt))
        /\ (Router.asPath r = Editor.noteUrl (Some item) ->
            commit data note r = ([Editor.CreateNote n], r, Fulfilled tt))))
/\ (Router.has (Router.query r) "new" = false ->
    commit data note r = ([Editor.UpdateNote data], r, updateNote data))
/\ (commit data note r
    = (started_call (commit_start data note r)
       :: fst (fst (commit_finish (fun _ => Fulfilled tt)
                      (commit_start data note r) r)),
       snd (fst (commit_finish (fun _ => Fulfilled tt)
                   (commit_start data note r) r)),
       snd (commit_finish (fun _ => Fulfilled tt)
              (commit_start data note r) r)))
/\ (Router.has (Router.query r) "new" = true ->
    forall item, createNote n = Fulfilled item ->
    Router.asPath r <> Editor.noteUrl item ->
    Router.has (Router.query_of_url (Editor.noteUrl item)) "new" = false ->
    forall later,
      Editor.trace (fold_left (fun s d => dispatch d s) later (dispatch data s))
      = Editor.trace s
        ++ [Editor.Invoked data; Editor.CreateNote n;
            Editor.RouterReplace (Editor.noteUrl item) true]
        ++ flat_map (fun d => [Editor.Invoked d; Editor.UpdateNote d]) later)
/\ (Router.has (Router.query r) "new" = true ->
    forall e, createNote n = Rejected e ->
    Editor.router (dispatch data s) = r
    /\ forall d,
         exists rest,
           Editor.trace (dispatch d (dispatch data s))
           = Editor.trace s
             ++ [Editor.Invoked data; Editor.CreateNote n]
             ++ Editor.Invoked d :: Editor.CreateNote (created d note r)
                :: rest)
/\ (Router.has (Router.query r) "new" = true ->
    forall navigate item e, createNote n = Fulfilled item ->
    navigate (Editor.noteUrl item) = Rejected e ->
    snd (fst (commit_finish navigate (commit_start data note r) r)) = r)
/\ (Router.has (Router.query r) "new" = true ->
    forall navigate d2,
    exists rest,
      fst (overlapped navigate data d2 note r)
      = Editor.CreateNote n :: Editor.CreateNote (created d2 note r) :: rest).
Proof.
intros note r n. split; [|split; [|split; [|split; [|split; [|split]]]]].
- intros Hnew. split; [apply commit_create; exact Hnew|].
  split; [|split].
  + intros [Hp|Hp]; unfold n; rewrite created_pid, Hp; reflexivity.
  + intros p Hp Hne. unfold n. rewrite created_pid, Hp.
    destruct p; [contradiction|reflexivity].
  + intros item Hc. rewrite (commit_created data note r _ Hnew Hc).
    split; intros H.
    * destruct (String.eqb_spec (Router.asPath r)
                  (Editor.noteUrl (Some item))); [contradiction|reflexivity].
    * rewrite H, String.eqb_refl. reflexivity.
- apply commit_update.
- apply commit_in_two_parts.
- intros Hnew item Hc Hne Hplain later.
  destruct (dispatch_create_moved data s item Hnew Hc Hne) as [Ht Hr].
  rewrite dispatch_updates; [|rewrite Hr; exact Hplain].
  rewrite Ht, <- app_assoc. reflexivity.
- intros Hnew e Hc.
  destruct (dispatch_create_rejected data s e Hnew Hc) as [Ht [Hr Hn]].
  split; [exact Hr|]. intros d.
  assert (Hnew' : Router.has
                    (Router.query (Editor.router (dispatch data s))) "new"
                  = true) by (rewrite Hr; exact Hnew).
  destruct (commit_create d (Editor.note (dispatch data s))
              (Editor.router (dispatch data s)) Hnew') as [rest [Hrest _]].
  exists rest. unfold dispatch at 1, Editor.invoke. simpl.
  fold (dispatch data s).
  destruct (commit d (Editor.note (dispatch data s))
              (Editor.router (dispatch data s))) as [[es r'] out] eqn:Ec.
  simpl in Hrest. simpl. rewrite Ht, Hrest, Hn, Hr, <- app_assoc.
  reflexivity.
- intros Hnew navigate item e Hc Hnav.
  unfold commit_start, commit_finish. fold r. rewrite Hnew.
  fold (created data note r). fold n. rewrite Hc.
  destruct (String.eqb _ _); [reflexivity|]. rewrite Hnav. reflexivity.
- intros Hnew navigate d2. unfold overlapped, commit_start.
  rewrite Hnew. fold (created data note r). fold (created d2 note r).
  destruct (commit_finish navigate (Creating (created data note r)) r)
    as [[e1 r1] o1].
  destruct (commit_finish navigate (Creating (created d2 note r)) r1)
    as [[e2 r2] o2].
  eexists. reflexivity.
Qed.

End CommitFacts.

Lemma onNoteChange_commit_routing_witness :
(Router.has (Router.query (Editor.router creating)) "new" = true
 /\ Router.asPath (Editor.router creating) <> "/n2")
/\ Editor.trace
     (fold_left (fun s d => dispatch "root" create_ok update_ok d s)
        [Partial.of_content "ab"]
        (dispatch "root" create_ok update_ok (Partial.of_content "a")
           creating))
   = [Editor.Invoked (Partial.of_content "a");
      Editor.CreateNote
        {| Partial.id := Some "n2"; Partial.title := Some "";
           Partial.pid := Some "p1"; Partial.content := Some "a" |};
      Editor.RouterReplace "/n2" true;
      Editor.Invoked (Partial.of_content "ab");
      Editor.UpdateNote (Partial.of_content "ab")].
Proof.
assert (Hne : Router.asPath (Editor.router creating) <> "/n2")
  by discriminate.
split; [split; [reflexivity|exact Hne]|].
apply (proj1 (proj2 (proj2 (proj2 (onNoteChange_commit_routing "root"
                                     create_ok update_ok
                                     (Partial.of_content "a") creating))))
         eq_refl _ eq_refl Hne eq_refl [Partial.of_content "ab"]).
Defined.

(** C3 fails when createNote is rejected, and when two runs overlap: in a
    new-note session whose createNote is rejected the address keeps the
    intent, and the second commit creates again instead of updating; and a
    run that starts while the creating run is still waiting for createNote
    creates a second time. *)
Lemma onNoteChange_creates_twice :
Editor.trace
  (dispatch "root" create_fails update_ok (Partial.of_content "ab")
     (dispatch "root" create_fails update_ok (Partial.of_content "a")
        creating))
= [Editor.Invoked (Partial.of_content "a");
   Editor.CreateNote
     {| Partial.id := Some "n2"; Partial.title := Some "";
        Partial.pid := Some "p1"; Partial.content := Some "a" |};
   Editor.Invoked (Partial.of_content "ab");
   Editor.CreateNote
     {| Partial.id := Some "n2"; Partial.title := Some "";
        Partial.pid := Some "p1"; Partial.content := Some "ab" |}]
/\ fst (overlapped "root" create_ok update_ok (fun _ => Fulfilled tt)
          (Partial.of_content "a") (Partial.of_content "ab")
          (Editor.note creating) (Editor.router creating))
   = [Editor.CreateNote
        {| Partial.id := Some "n2"; Partial.title := Some "";
           Partial.pid := Some "p1"; Partial.content := Some "a" |};
      Editor.CreateNote
        {| Partial.id := Some "n2"; Partial.title := Some "";
           Partial.pid := Some "p1"; Partial.content := Some "ab" |};
      Editor.RouterReplace "/n2" true].
Proof. split; reflexivity. Qed.

(** The address of a note whose id has no question mark carries no query,
    and so no new-note intent. *)
Lemma noteUrl_plain (n : NoteModel) :
Router.search_of (Note.id n) = None ->
Router.has (Router.query_of_url (Editor.noteUrl (Some n))) "new" = false.
Proof.
intros H. unfold Router.query_of_url, Editor.noteUrl. simpl.
rewrite H. reflexivity.
Qed.

(** ** Link creation *)

(** C8: when createNoteWithTitle yields a note, onCreateLink returns the
    address made of a slash and the id of that note; when it yields
    nothing, the call is rejected with the thrown error and returns no
    address. *)
Theorem onCreateLink_address_or_throw
  (createNoteWithTitle : string -> Settled (option NoteModel))
  (title : string) :
(forall result, createNoteWithTitle title = Fulfilled (Some result) ->
   Editor.onCreateLink createNoteWithTitle title
   = Fulfilled (Editor.noteUrl (Some result)))
/\ (createNoteWithTitle title = Fulfilled None ->
    Editor.onCreateLink createNoteWithTitle title = Rejected "todo"
    /\ forall url,
         Editor.onCreateLink createNoteWithTitle title <> Fulfilled url).
Proof.
unfold Editor.onCreateLink. split.
- intros result H. rewrite H. reflexivity.
- intros H. rewrite H. split; [reflexivity|discriminate].
Qed.

Lemma onCreateLink_address_or_throw_witness :
(Editor.onCreateLink
   (fun t => create_ok (Partial.mk (Some "n7") (Some t) None None)) "Ideas"
 = Fulfilled "/n7")
/\ Editor.onCreateLink (fun _ => Fulfilled None) "Ideas" = Rejected "todo".
Proof.
split.
- apply (proj1 (onCreateLink_address_or_throw
                  (fun t => create_ok (Partial.mk (Some "n7") (Some t) None None))
                  "Ideas")
           {| Note.id := "n7"; Note.title := ""; Note.pid := None;
              Note.content := None |}).
  reflexivity.
- apply (proj2 (onCreateLink_address_or_throw (fun _ => Fulfilled None)
                  "Ideas")).
  reflexivity.
Defined.

(** ** Backlinks *)

(** A scan gathers the snapshots that link to the target, in the order of
    the cache, and visits each snapshot once. *)
Lemma scan_is_filter target cache : forall sc,
iterate cache (Editor.visit target) sc
= {| linkNotes := linkNotes sc ++ filter (Editor.links_to target) cache;
     visits := visits sc + length cache |}.
Proof.
unfold iterate.
induction cache as [|v cache IH]; intros [acc k]; simpl.
- rewrite app_nil_r, Nat.add_0_r. reflexivity.
- rewrite IH. unfold Editor.visit at 1 2. simpl.
  destruct (Editor.links_to target v); simpl.
  + rewrite <- app_assoc. simpl. f_equal. lia.
  + f_equal. lia.
Qed.

(** The test of the visitor holds exactly of the snapshots whose linkIds
    are there and have the target among them. *)
Lemma links_to_iff target value :
Editor.links_to target value = true
<-> exists ids, linkIds value = Some ids /\ In target ids.
Proof.
unfold Editor.links_to, JS.array_includes.
destruct (linkIds value) as [ids|].
- rewrite existsb_exists. split.
  + intros [x [Hin He]]. apply String.eqb_eq in He. subst x.
    exists ids. split; [reflexivity|exact Hin].
  + intros [ids' [E Hin]]. inversion E; subst ids'.
    exists target. split; [exact Hin|apply String.eqb_refl].
- split; [discriminate|]. intros [ids [E _]]. discriminate.
Qed.

Lemma links_to_member target value :
Editor.links_to target value
= match linkIds value with
  | Some ids => if in_dec string_dec target ids then true else false
  | None => false
  end.
Proof.
destruct (Editor.links_to target value) eqn:E.
- apply links_to_iff in E. destruct E as [ids [H Hin]]. rewrite H.
  destruct (in_dec string_dec target ids); [reflexivity|contradiction].
- destruct (linkIds value) as [ids|] eqn:H; [|reflexivity].
  destruct (in_dec string_dec target ids) as [Hin|]; [|reflexivity].
  assert (T : Editor.links_to target value = true)
    by (apply links_to_iff; exists ids; split; assumption).
  rewrite T in E. discriminate.
Qed.

(** C4: with the id of the current note at hand, getBackLinks hands every
    one of the N snapshots of the cache to its visitor and leaves as
    backlinks exactly the K snapshots that have that id among their
    linkIds, in the order the cache yields them; with no id at hand it
    returns the empty array, visits nothing and leaves the backlinks as
    they were. *)
Theorem getBackLinks_scan
  (note : option NoteModel) (noteCache : list NoteCacheItem)
  (backlinks : option (list NoteCacheItem)) :
(forall n N K,
   note = Some n -> Note.id n <> "" ->
   length noteCache = N ->
   length (filter (fun value =>
                     match linkIds value with
                     | Some ids =>
                         if in_dec string_dec (Note.id n) ids
                         then true else false
                     | None => false
                     end) noteCache) = K ->
   exists found,
     Editor.getBackLinks note noteCache backlinks = (None, Some found, N)
     /\ found = filter (fun value =>
                          match linkIds value with
                          | Some ids =>
                              if in_dec string_dec (Note.id n) ids
                              then true else false
                          | None => false
                          end) noteCache
     /\ length found = K
     /\ forall v, In v found
                  <-> In v noteCache
                      /\ exists ids, linkIds v = Some ids
                                     /\ In (Note.id n) ids)
/\ ((note = None \/ exists n, note = Some n /\ Note.id n = "") ->
    Editor.getBackLinks note noteCache backlinks = (Some [], backlinks, 0)).
Proof.
split.
- intros n N K Hn Hid HN HK. subst note.
  assert (Hf : filter (Editor.links_to (Note.id n)) noteCache
               = filter (fun value =>
                           match linkIds value with
                           | Some ids =>
                               if in_dec string_dec (Note.id n) ids
                               then true else false
                           | None => false
                           end) noteCache)
    by (apply filter_ext; intros v; apply links_to_member).
  exists (filter (Editor.links_to (Note.id n)) noteCache).
  split; [|split; [exact Hf|split; [rewrite Hf; exact HK|]]].
  + unfold Editor.getBackLinks.
    destruct (Note.id n) as [|c r] eqn:E; [contradiction|]. simpl.
    rewrite scan_is_filter. simpl. rewrite HN. reflexivity.
  + intros v. rewrite filter_In, links_to_iff. reflexivity.
- intros [Hn|[n [Hn Hid]]]; subst note; unfold Editor.getBackLinks;
    [reflexivity|]. rewrite Hid. reflexivity.
Qed.

Lemma getBackLinks_scan_witness :
(Note.id stored_note <> ""
 /\ length sample_cache = 3)
/\ exists found,
     Editor.getBackLinks (Some stored_note) sample_cache None
     = (None, Some found, 3)
     /\ map cache_id found = ["a"; "c"]
     /\ length found = 2.
Proof.
assert (Hid : Note.id stored_note <> "") by discriminate.
split; [split; [exact Hid|reflexivity]|].
destruct (proj1 (getBackLinks_scan (Some stored_note) sample_cache None)
            stored_note 3 2 eq_refl Hid eq_refl eq_refl)
  as [found [Hg [Hf [Hk _]]]].
exists found. split; [exact Hg|]. split; [|exact Hk].
rewrite Hf. reflexivity.
Defined.

(** ** Hovering a link *)





(** ** The global error handlers *)

(** With the flag off, [onerror] suppresses a string message that holds a
    marker and passes every other error on; likewise for rejections. *)
Lemma onerror_off_cancelled original a m :
RouteErrorHandler.arg_message a = inl m ->
RouteErrorHandler.isRouteCancelled m = true ->
RouteErrorHandler.onerror false original a
= {| RouteErrorHandler.returned := true;
     RouteErrorHandler.console := [RouteErrorHandler.console_warn m];
     RouteErrorHandler.defaultPrevented := false;
     RouteErrorHandler.delegated := false |}.
Proof.
intros Ha Hm. unfold RouteErrorHandler.onerror. rewrite Ha, Hm. reflexivity.
Qed.

Lemma onerror_off_other original a :
(forall m, RouteErrorHandler.arg_message a = inl m ->
           RouteErrorHandler.isRouteCancelled m = false) ->
RouteErrorHandler.onerror false original a
= RouteErrorHandler.pass_on original a.
Proof.
intros H. unfold RouteErrorHandler.onerror.
destruct (RouteErrorHandler.arg_message a) as [m|ev]; [|reflexivity].
rewrite (H m eq_refl). reflexivity.
Qed.

Lemma onunhandledrejection_off_cancelled original event m :
RouteErrorHandler.reason_message event = Some m ->
RouteErrorHandler.isRouteCancelled m = true ->
RouteErrorHandler.onunhandledrejection false original event
= {| RouteErrorHandler.returned := true;
     RouteErrorHandler.console := [RouteErrorHandler.console_warn m];
     RouteErrorHandler.defaultPrevented := true;
     RouteErrorHandler.delegated := false |}.
Proof.
intros Ha Hm. unfold RouteErrorHandler.onunhandledrejection.
rewrite Ha, Hm. reflexivity.
Qed.

Lemma onunhandledrejection_off_other original event :
(forall m, RouteErrorHandler.reason_message event = Some m ->
           RouteErrorHandler.isRouteCancelled m = false) ->
RouteErrorHandler.onunhandledrejection false original event
= RouteErrorHandler.pass_on original event.
Proof.
intros H. unfold RouteErrorHandler.onunhandledrejection.
destruct (RouteErrorHandler.reason_message event) as [m|]; [|reflexivity].
rewrite (H m eq_refl). reflexivity.
Qed.

(** C9, as the source has it: while window.__EDIT_MODE_TOGGLE__ is not
    set, an error whose message holds one of the three route-cancellation
    markers is logged as a warning and suppressed (onerror returns true;
    onunhandledrejection prevents the default and returns true) without
    reaching the handler installed before; every other error is handed to
    that handler when there is one, whose answer is returned, and is
    answered with false when there is none.  While the flag is set, both
    handlers answer false for every error: nothing is suppressed, warned
    about or handed on. *)
Theorem route_error_handlers
  (toggle : bool)
  (originalErrorHandler : option (RouteErrorHandler.ErrorArgs -> bool))
  (originalUnhandledRejection :
     option (RouteErrorHandler.PromiseRejectionEvent -> bool))
  (a : RouteErrorHandler.ErrorArgs)
  (event : RouteErrorHandler.PromiseRejectionEvent) :
let suppressed prevented m :=
  {| RouteErrorHandler.returned := true;
     RouteErrorHandler.console := [RouteErrorHandler.console_warn m];
     RouteErrorHandler.defaultPrevented := prevented;
     RouteErrorHandler.delegated := false |} in
let untouched :=
  {| RouteErrorHandler.returned := false;
     RouteErrorHandler.console := [RouteErrorHandler.console_log];
     RouteErrorHandler.defaultPrevented := false;
     RouteErrorHandler.delegated := false |} in
(toggle = false ->
   (forall m, RouteErrorHandler.arg_message a = inl m ->
      RouteErrorHandler.isRouteCancelled m = true ->
      RouteErrorHandler.onerror toggle originalErrorHandler a
      = suppressed false m)
   /\ ((forall m, RouteErrorHandler.arg_message a = inl m ->
          RouteErrorHandler.isRouteCancelled m = false) ->
       RouteErrorHandler.onerror toggle originalErrorHandler a
       = RouteErrorHandler.pass_on originalErrorHandler a)
   /\ (forall m, RouteErrorHandler.reason_message event = Some m ->
         RouteErrorHandler.isRouteCancelled m = true ->
         RouteErrorHandler.onunhandledrejection toggle
           originalUnhandledRejection event
         = suppressed true m)
   /\ ((forall m, RouteErrorHandler.reason_message event = Some m ->
          RouteErrorHandler.isRouteCancelled m = false) ->
       RouteErrorHandler.onunhandledrejection toggle
         originalUnhandledRejection event
       = RouteErrorHandler.pass_on originalUnhandledRejection event))
/\ (forall A (h : A -> bool) (x : A),
      RouteErrorHandler.pass_on (Some h) x
      = {| RouteErrorHandler.returned := h x;
           RouteErrorHandler.console := [];
           RouteErrorHandler.defaultPrevented := false;
           RouteErrorHandler.delegated := true |})
/\ (forall A (x : A),
      RouteErrorHandler.returned (RouteErrorHandler.pass_on None x) = false)
/\ (toggle = true ->
    RouteErrorHandler.onerror toggle originalErrorHandler a = untouched
    /\ RouteErrorHandler.onunhandledrejection toggle
         originalUnhandledRejection event = untouched).
Proof.
intros suppressed untouched. split; [|split; [|split]].
- intros Ht. subst toggle. split; [|split; [|split]].
  + apply onerror_off_cancelled.
  + apply onerror_off_other.
  + apply onunhandledrejection_off_cancelled.
  + apply onunhandledrejection_off_other.
- reflexivity.
- reflexivity.
- intros Ht. subst toggle. split; reflexivity.
Qed.

Lemma route_error_handlers_witness :
RouteErrorHandler.isRouteCancelled "Error: Route Cancelled" = true
/\ RouteErrorHandler.onerror false (Some (fun _ => false))
     (RouteErrorHandler.mkArgs (inl "Error: Route Cancelled") None None None
        None)
   = {| RouteErrorHandler.returned := true;
        RouteErrorHandler.console :=
          [RouteErrorHandler.console_warn "Error: Route Cancelled"];
        RouteErrorHandler.defaultPrevented := false;
        RouteErrorHandler.delegated := false |}.
Proof.
split; [reflexivity|].
apply (proj1 (proj1 (route_error_handlers false (Some (fun _ => false)) None
                       (RouteErrorHandler.mkArgs
                          (inl "Error: Route Cancelled") None None None None)
                       (RouteErrorHandler.mkRejection None))
                eq_refl)
         "Error: Route Cancelled" eq_refl eq_refl).
Defined.

(** C9 fails while window.__EDIT_MODE_TOGGLE__ is set: an error that
    carries a route-cancellation marker is then not suppressed (both
    handlers return false, the default is not prevented, no warning is
    logged), and an error without a marker is not handed to the handler
    that was installed before. *)
Lemma route_error_handlers_toggle_set :
let cancelled := RouteErrorHandler.mkError (Some "Route Cancelled") in
let failure := RouteErrorHandler.mkError (Some "Failed to fetch") in
RouteErrorHandler.isRouteCancelled "Route Cancelled" = true
/\ RouteErrorHandler.isRouteCancelled "Failed to fetch" = false
/\ RouteErrorHandler.returned
     (RouteErrorHandler.onerror true (Some (fun _ => true))
        (RouteErrorHandler.mkArgs (inl "Route Cancelled") None None None
           (Some cancelled))) = false
/\ RouteErrorHandler.onunhandledrejection true (Some (fun _ => true))
     (RouteErrorHandler.mkRejection (Some cancelled))
   = {| RouteErrorHandler.returned := false;
        RouteErrorHandler.console := [RouteErrorHandler.console_log];
        RouteErrorHandler.defaultPrevented := false;
        RouteErrorHandler.delegated := false |}
/\ RouteErrorHandler.delegated
     (RouteErrorHandler.onerror true (Some (fun _ => true))
        (RouteErrorHandler.mkArgs (inl "Failed to fetch") None None None
           (Some failure))) = false.
Proof. repeat split. Qed.

(** * Further properties of the two files *)

(** ** Strings *)

Lemma prefix_append (p s : string) : String.prefix p (p ++ s)%string = true.
Proof.
induction p as [|c p IH]; simpl; [destruct s; reflexivity|].
destruct (Ascii.ascii_dec c c) as [_|N]; [exact IH|contradiction].
Qed.

Lemma prefix_split (p : string) : forall s,
String.prefix p s = true -> exists post, s = (p ++ post)%string.
Proof.
induction p as [|c p IH]; intros s H.
- exists s. reflexivity.
- destruct s as [|d s]; simpl in H; [discriminate|].
  destruct (Ascii.ascii_dec c d) as [E|N]; [|discriminate].
  destruct (IH s H) as [post Hp]. exists post. subst. reflexivity.
Qed.

Lemma includes_unfold (hay needle : string) :
JS.includes hay needle
= if String.prefix needle hay then true
  else match hay with
       | EmptyString => false
       | String _ r => JS.includes r needle
       end.
Proof. destruct hay; reflexivity. Qed.

(** [includes] finds exactly the strings that occur somewhere inside. *)
Lemma includes_iff (needle : string) : forall hay,
JS.includes hay needle = true
<-> exists pre post, hay = (pre ++ needle ++ post)%string.
Proof.
intros hay. split.
- induction hay as [|c hay IH]; rewrite includes_unfold;
    destruct (String.prefix needle _) eqn:P; intros H; try discriminate.
  + destruct (prefix_split _ _ P) as [post Hp]. exists EmptyString, post.
    exact Hp.
  + destruct (prefix_split _ _ P) as [post Hp]. exists EmptyString, post.
    exact Hp.
  + destruct (IH H) as [pre [post Hp]]. exists (String c pre), post.
    simpl. rewrite Hp. reflexivity.
- intros [pre [post H]]. subst hay.
  induction pre as [|c pre IH].
  + rewrite includes_unfold. simpl. rewrite prefix_append. reflexivity.
  + change (String c pre ++ needle ++ post)%string
      with (String c (pre ++ needle ++ post)).
    rewrite includes_unfold.
    destruct (String.prefix needle (String c (pre ++ needle ++ post)));
      [reflexivity|exact IH].
Qed.

Lemma drop_append (p s : string) : JS.drop (String.length p) (p ++ s) = s.
Proof. induction p as [|c p IH]; simpl; [destruct s; reflexivity|exact IH]. Qed.

Lemma remove_first_unfold (s pat : string) :
JS.remove_first s pat
= if String.prefix pat s then JS.drop (String.length pat) s
  else match s with
       | EmptyString => EmptyString
       | String c r => String c (JS.remove_first r pat)
       end.
Proof. destruct s; reflexivity. Qed.

(** Taking the first occurrence of [pat] out of a string that starts with
    it leaves the rest; a string without [pat] is left whole. *)
Lemma remove_first_prefix (pat rest : string) :
JS.remove_first (pat ++ rest) pat = rest.
Proof.
rewrite remove_first_unfold, prefix_append. apply drop_append.
Qed.

Lemma remove_first_absent (pat : string) : forall s,
JS.includes s pat = false -> JS.remove_first s pat = s.
Proof.
induction s as [|c s IH]; intros H; rewrite includes_unfold in H;
  rewrite remove_first_unfold;
  destruct (String.prefix pat _); try discriminate; [reflexivity|].
rewrite (IH H). reflexivity.
Qed.

(** ** The route error handlers, further *)

(** X1: a message counts as a cancelled navigation exactly when one of the
    three markers occurs somewhere inside it, whatever stands before and
    after. *)
Theorem isRouteCancelled_iff (m : string) :
RouteErrorHandler.isRouteCancelled m = true
<-> exists marker pre post,
      In marker ["Route Cancelled"; "Cancel rendering route";
                 "Loading initial props cancelled"]
      /\ m = (pre ++ marker ++ post)%string.
Proof.
unfold RouteErrorHandler.isRouteCancelled. split.
- intros H. apply orb_true_iff in H. destruct H as [H|H];
    [apply orb_true_iff in H; destruct H as [H|H]|];
    apply includes_iff in H; destruct H as [pre [post H]];
    eexists; exists pre, post; (split; [|exact H]); simpl; tauto.
- intros [marker [pre [post [Hin H]]]].
  assert (Hi : JS.includes m marker = true)
    by (apply includes_iff; exists pre, post; exact H).
  simpl in Hin. destruct Hin as [E|[E|[E|[]]]]; subst marker; rewrite Hi;
    rewrite ?orb_true_r; reflexivity.
Qed.

(** X2: the listener for routeChangeError and the two global handlers
    judge an error by its message alike: each returns true exactly when
    the flag is unset and the message is one of a cancelled navigation (for
    the global ones, with no handler installed before); the listener marks
    the error as cancelled exactly when it returns true, and leaves the
    mark as it found it otherwise. *)
Theorem handlers_agree (toggle : bool) (m : string) (cancelled : option bool) :
let e := RouteErrorHandler.mkError (Some m) in
let verdict := RouteErrorHandler.handleRouteError toggle e cancelled in
fst (fst verdict) = negb toggle && RouteErrorHandler.isRouteCancelled m
/\ fst (fst verdict)
   = RouteErrorHandler.returned
       (RouteErrorHandler.onerror toggle None
          (RouteErrorHandler.mkArgs (inl m) None None None (Some e)))
/\ fst (fst verdict)
   = RouteErrorHandler.returned
       (RouteErrorHandler.onunhandledrejection toggle None
          (RouteErrorHandler.mkRejection (Some e)))
/\ snd (fst verdict) = (if fst (fst verdict) then Some true else cancelled).
Proof.
unfold RouteErrorHandler.handleRouteError, RouteErrorHandler.onerror,
  RouteErrorHandler.onunhandledrejection, RouteErrorHandler.reason_message.
simpl. destruct toggle; simpl; [repeat split|].
destruct (RouteErrorHandler.isRouteCancelled m); repeat split.
Qed.

(** ** Following a link *)

(** X3: a click on the address of a note is followed inside the
    application, with a shallow push of the address as it was clicked, both
    when the address is written in full on the origin of the page and when
    it is written without an origin. *)
Theorem onClickLink_internal
  (isNoteLink : string -> bool) (origin path : string) :
isNoteLink path = true ->
Editor.onClickLink isNoteLink origin (origin ++ path)
= Editor.RouterPush (origin ++ path)%string true
/\ (JS.includes path origin = false ->
    Editor.onClickLink isNoteLink origin path = Editor.RouterPush path true).
Proof.
intros H. unfold Editor.onClickLink. split.
- rewrite remove_first_prefix, H. reflexivity.
- intros Ha. rewrite (remove_first_absent _ _ Ha), H. reflexivity.
Qed.

Lemma onClickLink_internal_witness :
isNoteLink_path "/abc123" = true
/\ Editor.onClickLink isNoteLink_path "https://notes.example"
     "https://notes.example/abc123"
   = Editor.RouterPush "https://notes.example/abc123" true
/\ Editor.onClickLink isNoteLink_path "https://notes.example" "/abc123"
   = Editor.RouterPush "/abc123" true.
Proof.
split; [reflexivity|]. split.
- apply (proj1 (onClickLink_internal isNoteLink_path "https://notes.example"
                  "/abc123" eq_refl)).
- apply (proj2 (onClickLink_internal isNoteLink_path "https://notes.example"
                  "/abc123" eq_refl)).
  reflexivity.
Defined.

(** X4: an address written in full that a click follows inside the
    application is shown on hover as an external link: the toolbar gets the
    address, the preview is left as it was. *)
Theorem full_address_hover_and_click
  (isNoteLink : string -> bool) (origin path : string)
  (editorEl : option MarkdownEditor) (link : Element) (p : Portal.t) :
isNoteLink path = true ->
isNoteLink (origin ++ path)%string = false ->
getAttribute_href link = Some (origin ++ path)%string ->
JS.array_includes (classList link) "bookmark" = false ->
Editor.is_readOnly editorEl = false ->
Editor.onClickLink isNoteLink origin (origin ++ path)
= Editor.RouterPush (origin ++ path)%string true
/\ Portal.preview (Editor.onHoverLink isNoteLink true editorEl link p)
   = Portal.preview p
/\ Portal.data
     (Portal.linkToolbar (Editor.onHoverLink isNoteLink true editorEl link p))
   = Some {| toolbar_href := (origin ++ path)%string;
             toolbar_view := option_map view editorEl |}.
Proof.
intros Hp Hf Hh Hk Hr. split.
- unfold Editor.onClickLink. rewrite remove_first_prefix, Hp. reflexivity.
- unfold Editor.onHoverLink. rewrite Hr, Hk, Hh. simpl.
  destruct (origin ++ path)%string as [|c r] eqn:E.
  + destruct origin; [|discriminate]. simpl in E. subst path.
    rewrite Hp in Hf. discriminate.
  + simpl. rewrite Hf. split; reflexivity.
Qed.

Lemma full_address_hover_and_click_witness :
(isNoteLink_path "/abc123" = true
 /\ isNoteLink_path "https://notes.example/abc123" = false)
/\ Portal.data
     (Portal.linkToolbar
        (Editor.onHoverLink isNoteLink_path true writable
           (anchor_tag (Some "https://notes.example/abc123")) closed_portal))
   = Some {| toolbar_href := "https://notes.example/abc123";
             toolbar_view := Some 7 |}.
Proof.
split; [split; reflexivity|].
apply (proj2 (proj2 (full_address_hover_and_click isNoteLink_path
                       "https://notes.example" "/abc123" writable
                       (anchor_tag (Some "https://notes.example/abc123"))
                       closed_portal eq_refl eq_refl eq_refl eq_refl
                       eq_refl))).
Defined.

(** ** The session, further *)

(** A change event touches the buffer and the toasts only. *)
Lemma onEditorChange_frame value s :
Editor.isEditing (Editor.onEditorChange value s) = Editor.isEditing s
/\ Editor.currentContent (Editor.onEditorChange value s)
   = Editor.currentContent s
/\ Editor.note (Editor.onEditorChange value s) = Editor.note s
/\ Editor.router (Editor.onEditorChange value s) = Editor.router s
/\ Editor.now (Editor.onEditorChange value s) = Editor.now s
/\ Editor.commits (Editor.trace (Editor.onEditorChange value s))
   = Editor.commits (Editor.trace s).
Proof.
unfold Editor.onEditorChange.
destruct (Editor.isEditing s) eqn:E; [|rewrite E; repeat split].
simpl. destruct (Editor.result (Editor.onNoteChange s)) as [[u|e]|]; simpl;
  rewrite ?commits_app, ?app_nil_r; rewrite E; repeat split.
Qed.

Lemma edits_frame values : forall s,
Editor.isEditing (edits values s) = Editor.isEditing s
/\ Editor.currentContent (edits values s) = Editor.currentContent s
/\ Editor.note (edits values s) = Editor.note s
/\ Editor.commits (Editor.trace (edits values s))
   = Editor.commits (Editor.trace s).
Proof.
unfold edits.
induction values as [|v values IH]; intros s; simpl; [repeat split|].
destruct (IH (Editor.onEditorChange v s)) as [H1 [H2 [H3 H4]]].
destruct (onEditorChange_frame v s) as [F1 [F2 [F3 [_ [_ F6]]]]].
rewrite H1, H2, H3, H4, F1, F2, F3, F6. repeat split.
Qed.

(** The guard reads the edit mode, the draft and the note only. *)
Lemma handleBeforeUnload_reads s s' :
Editor.isEditing s' = Editor.isEditing s ->
Editor.currentContent s' = Editor.currentContent s ->
Editor.note s' = Editor.note s ->
Editor.handleBeforeUnload s' = Editor.handleBeforeUnload s.
Proof.
intros H1 H2 H3. unfold Editor.handleBeforeUnload, Editor.note_content.
rewrite H1, H2, H3. reflexivity.
Qed.

(** X5: toggling the edit mode twice gives back the session; one toggle
    flips the mode and leaves the draft, the note, the router, the buffer
    and the trace as they were. *)
Theorem toggleEditMode_involutive (s : Editor.Session) :
Editor.toggleEditMode (Editor.toggleEditMode s) = s
/\ Editor.isEditing (Editor.toggleEditMode s) = negb (Editor.isEditing s)
/\ Editor.trace (Editor.toggleEditMode s) = Editor.trace s
/\ Editor.onNoteChange (Editor.toggleEditMode s) = Editor.onNoteChange s
/\ Editor.currentContent (Editor.toggleEditMode s) = Editor.currentContent s.
Proof.
destruct s as [e c n r t d tr]. unfold Editor.toggleEditMode. simpl.
rewrite negb_involutive. repeat split.
Qed.

(** X6: the effect on the query only ever enters the edit mode: the mode
    afterwards is on when it was on or the query has the key new; running
    the effect again changes nothing more, and the rest of the session is
    untouched. *)
Theorem detectNew_only_enters (s : Editor.Session) :
Editor.isEditing (Editor.detectNew s)
= Editor.isEditing s || Router.has (Router.query (Editor.router s)) "new"
/\ Editor.detectNew (Editor.detectNew s) = Editor.detectNew s
/\ Editor.setIsEditing (Editor.isEditing s) (Editor.detectNew s) = s.
Proof.
destruct s as [e c n r t d tr]. unfold Editor.detectNew. simpl.
destruct (Router.has (Router.query r) "new") eqn:H; simpl.
- rewrite H, orb_true_r. repeat split.
- rewrite H, orb_false_r. repeat split.
Qed.

Lemma loadContent_some s c :
Editor.note_content s = Some c -> c <> "" ->
Editor.loadContent s = Editor.setCurrentContent c s.
Proof.
unfold Editor.loadContent, Editor.note_content. intros H N.
destruct (Editor.note s) as [n|]; [|discriminate]. rewrite H.
destruct c; [contradiction|reflexivity].
Qed.

Lemma loadContent_none s :
Editor.note_content s = None \/ Editor.note_content s = Some "" ->
Editor.loadContent s = s.
Proof.
unfold Editor.loadContent, Editor.note_content.
destruct (Editor.note s) as [n|]; [|reflexivity].
intros [H|H]; rewrite H; reflexivity.
Qed.

Lemma loadContent_quiet s c :
Editor.note_content s = Some c -> c <> "" ->
Editor.handleBeforeUnload (Editor.loadContent s) = None.
Proof.
intros H N. rewrite (loadContent_some s c H N).
unfold Editor.handleBeforeUnload, Editor.note_content in *. simpl.
rewrite H, String.eqb_refl, andb_false_r. reflexivity.
Qed.

(** X7: loading the content of the bound note, when it has some, makes it
    the draft, after which the guard on unload is quiet; when the note has
    no content, or an empty one, the draft is left as it was.  Loading
    twice is loading once. *)
Theorem loadContent_syncs (s : Editor.Session) :
Editor.loadContent (Editor.loadContent s) = Editor.loadContent s
/\ (forall c, Editor.note_content s = Some c -> c <> "" ->
      Editor.currentContent (Editor.loadContent s) = c
      /\ Editor.handleBeforeUnload (Editor.loadContent s) = None)
/\ ((Editor.note_content s = None \/ Editor.note_content s = Some "") ->
    Editor.loadContent s = s).
Proof.
split; [|split].
- destruct (Editor.note_content s) as [[|a c]|] eqn:E.
  + rewrite (loadContent_none s) by (right; exact E).
    apply loadContent_none. right. exact E.
  + assert (N : String a c <> "") by discriminate.
    rewrite (loadContent_some s _ E N).
    rewrite (loadContent_some (Editor.setCurrentContent (String a c) s)
               (String a c) E N).
    reflexivity.
  + rewrite (loadContent_none s) by (left; exact E).
    apply loadContent_none. left. exact E.
- intros c H N. split; [|apply (loadContent_quiet s c H N)].
  rewrite (loadContent_some s c H N). reflexivity.
- apply loadContent_none.
Qed.

Lemma loadContent_syncs_witness :
(Editor.note_content (editing "stale") = Some "old" /\ "old" <> "")
/\ Editor.currentContent (Editor.loadContent (editing "stale")) = "old"
/\ Editor.handleBeforeUnload (Editor.loadContent (editing "stale")) = None.
Proof.
assert (H : "old" <> "") by discriminate.
split; [split; [reflexivity|exact H]|].
apply (proj1 (proj2 (loadContent_syncs (editing "stale"))) "old" eq_refl H).
Defined.

(** X8: change events never reach the draft: whatever is typed, in
    whatever number of events, [currentContent] stays what it was, and the
    guard on unload answers as before the events; after the content of the
    note was loaded it stays quiet. *)
Theorem typing_never_arms_guard (values : list string) (s : Editor.Session) :
Editor.currentContent (edits values s) = Editor.currentContent s
/\ Editor.handleBeforeUnload (edits values s) = Editor.handleBeforeUnload s
/\ (forall c, Editor.note_content s = Some c -> c <> "" ->
      Editor.handleBeforeUnload (edits values (Editor.loadContent s)) = None).
Proof.
destruct (edits_frame values s) as [H1 [H2 [H3 _]]].
split; [exact H2|]. split.
- apply handleBeforeUnload_reads; assumption.
- intros c Hc Hne.
  destruct (edits_frame values (Editor.loadContent s)) as [L1 [L2 [L3 _]]].
  rewrite (handleBeforeUnload_reads _ _ L1 L2 L3).
  apply (loadContent_quiet s c Hc Hne).
Qed.

Lemma typing_never_arms_guard_witness :
(Editor.note_content (editing "stale") = Some "old" /\ "old" <> "")
/\ Editor.handleBeforeUnload
     (edits ["old and"; "old and new"] (Editor.loadContent (editing "stale")))
   = None.
Proof.
assert (H : "old" <> "") by discriminate.
split; [split; [reflexivity|exact H]|].
apply (proj2 (proj2 (typing_never_arms_guard ["old and"; "old and new"]
                       (editing "stale"))) "old" eq_refl H).
Defined.

Section SessionFacts.

Variable ROOT_ID : string.
Variable createNote : Partial.t -> Settled (option NoteModel).
Variable updateNote : Partial.t -> Settled unit.

Local Abbreviation commit := (Editor.commit ROOT_ID createNote updateNote).
Local Abbreviation advance := (Editor.advance ROOT_ID createNote updateNote).
Local Abbreviation dispatch := (dispatch ROOT_ID createNote updateNote).
Local Abbreviation created := (created ROOT_ID).

(** X9: a save that follows change events does not save what was typed:
    the patch that waits in the buffer after [saveNote] carries the draft as
    it was before the events, nothing is committed during the call, and
    when the timer runs out that one patch is committed. *)
Theorem saveNote_overrides_pending_edit
  (values : list string) (s : Editor.Session) :
Editor.currentContent s <> "" ->
let s' := Editor.saveNote (edits values s) in
Editor.lastArgs (Editor.onNoteChange s')
= Some (Partial.of_content (Editor.currentContent s))
/\ Editor.commits (Editor.trace s') = Editor.commits (Editor.trace s)
/\ Editor.commits (Editor.trace (advance 500 s'))
   = Editor.commits (Editor.trace s)
     ++ [Partial.of_content (Editor.currentContent s)].
Proof.
intros Hne s'.
destruct (edits_frame values s) as [_ [Hc [_ Ht]]].
assert (Hne' : Editor.currentContent (edits values s) <> "")
  by (rewrite Hc; exact Hne).
destruct (saveNote_schedules (edits values s) Hne') as [Ha [_ Hk]].
fold s' in Ha, Hk. rewrite Hc in Ha. rewrite Ht in Hk.
split; [exact (proj2 Ha)|]. split; [exact Hk|].
destruct (armed_elapse ROOT_ID createNote updateNote _ s' Ha) as [_ Hdue].
destruct (Hdue 500%Z) as [H _]; [unfold Editor.wait; lia|].
rewrite H, Hk. reflexivity.
Qed.

(** X10: before the creating commit the effect on the query puts a
    new-note session back into edit mode; once that commit has moved the
    address, the effect leaves the session alone. *)
Theorem detectNew_after_creation
  (data : Partial.t) (s : Editor.Session) (item : option NoteModel) :
Router.consistent (Editor.router s) ->
Router.has (Router.query (Editor.router s)) "new" = true ->
createNote (created data (Editor.note s) (Editor.router s)) = Fulfilled item ->
Router.has (Router.query_of_url (Editor.noteUrl item)) "new" = false ->
Editor.isEditing (Editor.detectNew (Editor.setIsEditing false s)) = true
/\ Editor.detectNew (dispatch data s) = dispatch data s.
Proof.
intros Hwf Hnew Hc Hplain. split.
- unfold Editor.detectNew. simpl. rewrite Hnew. reflexivity.
- destruct (dispatch_create ROOT_ID createNote updateNote data s item
              Hwf Hnew Hc Hplain) as [_ Hr].
  unfold Editor.detectNew. rewrite Hr. simpl. rewrite Hplain. reflexivity.
Qed.

Lemma persistence_calls_app (a b : list Editor.Effect) :
persistence_calls (a ++ b) = persistence_calls a ++ persistence_calls b.
Proof.
induction a as [|e a IH]; simpl; [reflexivity|].
destruct e; simpl; rewrite IH; reflexivity.
Qed.

(** One run of the wrapped function calls the persistence layer once. *)
Lemma commit_persists_once data note r :
length (persistence_calls (fst (fst (commit data note r)))) = 1.
Proof.
unfold Editor.commit.
destruct (Router.has _ _); [|reflexivity].
destruct (createNote _) as [item|e]; [|reflexivity].
destruct (String.eqb _ _); reflexivity.
Qed.

Lemma dispatch_trace data s :
exists es,
  Editor.trace (dispatch data s) = Editor.trace s ++ Editor.Invoked data :: es
  /\ Editor.commits es = []
  /\ length (persistence_calls es) = 1.
Proof.
unfold dispatch, Editor.invoke. simpl.
pose proof (commit_effects ROOT_ID createNote updateNote data
              (Editor.note s) (Editor.router s)) as Hc.
pose proof (commit_persists_once data (Editor.note s) (Editor.router s))
  as Hp.
destruct (commit data (Editor.note s) (Editor.router s)) as [[es r] out].
exists es. simpl in *. repeat split; assumption.
Qed.

(** X11: every patch the buffer dispatches reaches the persistence layer
    exactly once: after a run of dispatches the wrapped function has run on
    the patches in their order, and the trace holds one call of createNote
    or updateNote more for each of them. *)
Theorem dispatches_persist_once (patches : list Partial.t) :
forall s : Editor.Session,
let s' := fold_left (fun s d => dispatch d s) patches s in
Editor.commits (Editor.trace s') = Editor.commits (Editor.trace s) ++ patches
/\ length (persistence_calls (Editor.trace s'))
   = length (persistence_calls (Editor.trace s)) + length patches.
Proof.
induction patches as [|d patches IH]; intros s; simpl.
- rewrite app_nil_r, Nat.add_0_r. split; reflexivity.
- destruct (IH (dispatch d s)) as [H1 H2].
  destruct (dispatch_trace d s) as [es [Ht [Hc Hp]]].
  rewrite H1, H2, Ht.
  rewrite commits_app, persistence_calls_app, !length_app. simpl.
  rewrite Hc, Hp, <- app_assoc. simpl. split; [reflexivity|lia].
Qed.

(** X12: the note a commit sends to createNote for a content patch has the
    content of the patch, and the id and title of the bound note when there
    is one; its parent is the one the address names or the root, never the
    parent the bound note had, and never empty when ROOT_ID is not. *)
Theorem created_payload
  (c : string) (note : option NoteModel) (r : Router.t) :
ROOT_ID <> "" ->
let n := created (Partial.of_content c) note r in
Partial.content n = Some c
/\ Partial.id n = option_map Note.id note
/\ Partial.title n = option_map Note.title note
/\ Partial.pid n = Partial.pid (created (Partial.of_content c) None r)
/\ exists p, Partial.pid n = Some p /\ p <> "".
Proof.
intros Hroot n. unfold n, created.
destruct note as [note|]; simpl; (repeat split);
  (eexists; split; [reflexivity|]);
  unfold JS.or_else;
  (destruct (Router.get (Router.query r) "pid") as [[|a p]|];
     simpl; [exact Hroot|discriminate|exact Hroot]).
Qed.

End SessionFacts.

Lemma saveNote_overrides_pending_edit_witness :
Editor.currentContent (editing "old") <> ""
/\ Editor.commits
     (Editor.trace
        (Editor.advance "root" create_ok update_ok 500
           (Editor.saveNote (edits ["old and new"] (editing "old")))))
   = [Partial.of_content "old"].
Proof.
assert (H : Editor.currentContent (editing "old") <> "") by discriminate.
split; [exact H|].
apply (proj2 (proj2 (saveNote_overrides_pending_edit "root" create_ok
                       update_ok ["old and new"] (editing "old") H))).
Defined.

Lemma detectNew_after_creation_witness :
(Router.consistent (Editor.router creating)
 /\ Router.has (Router.query (Editor.router creating)) "new" = true)
/\ Editor.detectNew
     (dispatch "root" create_ok update_ok (Partial.of_content "a") creating)
   = dispatch "root" create_ok update_ok (Partial.of_content "a") creating.
Proof.
split; [split; reflexivity|].
apply (proj2 (detectNew_after_creation "root" create_ok update_ok
                (Partial.of_content "a") creating _
                eq_refl eq_refl eq_refl eq_refl)).
Defined.

Lemma created_payload_witness :
"root" <> ""
/\ Partial.pid (created "root" (Partial.of_content "a") (Some stored_note)
                  at_note)
   = Partial.pid (created "root" (Partial.of_content "a") None at_note).
Proof.
assert (H : "root" <> "") by discriminate.
split; [exact H|].
apply (proj1 (proj2 (proj2 (proj2 (created_payload "root" "a"
                                     (Some stored_note) at_note H))))).
Defined.

(** ** Hovering, further *)

(** X13: hovering the same element again changes nothing more: one hover
    event handled twice leaves the portal as handling it once does. *)
Theorem onHoverLink_idempotent
  (isNoteLink : string -> bool) (isBrowser : bool)
  (editorEl : option MarkdownEditor) (link : Element) (p : Portal.t) :
Editor.onHoverLink isNoteLink isBrowser editorEl link
  (Editor.onHoverLink isNoteLink isBrowser editorEl link p)
= Editor.onHoverLink isNoteLink isBrowser editorEl link p.
Proof.
unfold Editor.onHoverLink.
destruct (negb isBrowser || Editor.is_readOnly editorEl); [reflexivity|].
destruct (JS.array_includes (classList link) "bookmark"); [reflexivity|].
destruct (JS.truthy_opt (getAttribute_href link)); [|reflexivity].
destruct (isNoteLink _); reflexivity.
Qed.

(** ** Backlinks, further *)

(** X15: a scan of the cache is rebuilt piece by piece and owes nothing to
    earlier results: what a scan of two caches put end to end finds is what
    the scans of each find, one after the other, and it visits as many
    snapshots as both together, whatever the backlinks were before. *)
Theorem getBackLinks_append
  (n : NoteModel) (c1 c2 : list NoteCacheItem)
  (b b1 b2 : option (list NoteCacheItem))
  (f1 f2 : list NoteCacheItem) (N1 N2 : nat) :
Note.id n <> "" ->
Editor.getBackLinks (Some n) c1 b1 = (None, Some f1, N1) ->
Editor.getBackLinks (Some n) c2 b2 = (None, Some f2, N2) ->
Editor.getBackLinks (Some n) (c1 ++ c2) b = (None, Some (f1 ++ f2), N1 + N2).
Proof.
unfold Editor.getBackLinks. intros Hid.
destruct (Note.id n) as [|a r] eqn:E; [contradiction|]. simpl.
rewrite !scan_is_filter. simpl. intros H1 H2.
inversion H1; subst. inversion H2; subst.
rewrite filter_app, length_app. reflexivity.
Qed.

Lemma getBackLinks_append_witness :
Note.id stored_note <> ""
/\ Editor.getBackLinks (Some stored_note) (sample_cache ++ sample_cache) None
   = (None,
      Some (filter (Editor.links_to "n1") sample_cache
            ++ filter (Editor.links_to "n1") sample_cache), 3 + 3).
Proof.
assert (H : Note.id stored_note <> "") by discriminate.
split; [exact H|].
apply (getBackLinks_append stored_note sample_cache sample_cache None
         (Some []) None _ _ 3 3 H eq_refl eq_refl).
Defined.

(** ** Uploading and searching *)

(** X16: [onUploadImage] returns an address exactly when the fetcher
    answered with one, and then shows nothing; it shows a toast exactly
    when the fetcher answered with no result, and then the toast and the
    error the call is rejected with both carry the error text of the
    fetcher.  The request is a POST to the upload address of the id, which
    reads undefined when no id is given. *)
Theorem onUploadImage_outcomes
  (request : Editor.UploadRequest -> Settled (option string))
  (fetch_error : string) (file : nat) (id : option string) :
let req := {| Editor.upload_method := "POST";
              Editor.upload_url := Editor.upload_address id;
              Editor.upload_file := file |} in
let out := Editor.onUploadImage request fetch_error file id in
(forall url, fst out = Fulfilled url <-> request req = Fulfilled (Some url))
/\ (snd out <> [] <-> request req = Fulfilled None)
/\ (forall url, fst out = Fulfilled url -> snd out = [])
/\ (snd out <> [] ->
    out = (Rejected fetch_error, [Editor.Toast fetch_error Editor.error]))
/\ Editor.upload_address None = "/api/upload?id=undefined".
Proof.
intros req out. unfold out, Editor.onUploadImage. fold req.
destruct (request req) as [[url|]|e]; simpl; repeat split;
  try discriminate; try congruence; intros H; try reflexivity;
  try (exfalso; apply H; reflexivity); inversion H; reflexivity.
Qed.

Lemma onUploadImage_outcomes_witness :
snd (Editor.onUploadImage (fun _ => Fulfilled None) "Request failed" 3
       (Some "n1")) <> []
/\ Editor.onUploadImage (fun _ => Fulfilled None) "Request failed" 3
     (Some "n1")
   = (Rejected "Request failed",
      [Editor.Toast "Request failed" Editor.error]).
Proof.
assert (H : snd (Editor.onUploadImage (fun _ => Fulfilled None)
                   "Request failed" 3 (Some "n1")) <> []) by discriminate.
split; [exact H|].
apply (proj1 (proj2 (proj2 (proj2 (onUploadImage_outcomes
                                     (fun _ => Fulfilled None)
                                     "Request failed" 3 (Some "n1"))))) H).
Defined.

(** X17: [onSearchLink] makes one suggestion per hit, in the order of the
    hits, with the title of the hit, the address of its note, and the
    excerpt of its raw content for the keyword within 40 characters, the
    empty text standing in for a missing raw content; and a click on any
    suggested address is followed inside the application, when the
    addresses of the hits are note links that do not contain the origin. *)
Theorem onSearchLink_suggestions
  (searchRangeText : string -> string -> Z -> string)
  (isNoteLink : string -> bool) (origin keyword : string)
  (hits : list Editor.SearchHit) :
length (Editor.onSearchLink searchRangeText keyword hits) = length hits
/\ (forall i h, nth_error hits i = Some h ->
      nth_error (Editor.onSearchLink searchRangeText keyword hits) i
      = Some {| Editor.suggestion_title := Editor.hit_title h;
                Editor.suggestion_subtitle :=
                  searchRangeText
                    (match Editor.hit_rawContent h with
                     | Some (String a t) => String a t
                     | _ => ""
                     end) keyword 40%Z;
                Editor.suggestion_url := ("/" ++ Editor.hit_id h)%string |})
/\ (Forall (fun h =>
              isNoteLink ("/" ++ Editor.hit_id h)%string = true
              /\ JS.includes ("/" ++ Editor.hit_id h) origin = false) hits ->
    Forall (fun sg =>
              Editor.onClickLink isNoteLink origin (Editor.suggestion_url sg)
              = Editor.RouterPush (Editor.suggestion_url sg) true)
           (Editor.onSearchLink searchRangeText keyword hits)).
Proof.
unfold Editor.onSearchLink. split; [apply length_map|]. split.
- intros i h H. rewrite nth_error_map, H. simpl.
  destruct (Editor.hit_rawContent h) as [[|a t]|]; reflexivity.
- intros Hall. apply Forall_map. apply Forall_impl with (2 := Hall).
  intros h [Hl Ha]. cbn [Editor.suggestion_url]. unfold Editor.onClickLink.
  rewrite (remove_first_absent _ _ Ha), Hl. reflexivity.
Qed.

Lemma onSearchLink_suggestions_witness :
Forall (fun h =>
          isNoteLink_path ("/" ++ Editor.hit_id h)%string = true
          /\ JS.includes ("/" ++ Editor.hit_id h) "https://notes.example"
             = false)
       [Editor.mkHit "n1" "Todo" (Some "buy milk"); Editor.mkHit "n3" "" None]
/\ Forall (fun sg =>
             Editor.onClickLink isNoteLink_path "https://notes.example"
               (Editor.suggestion_url sg)
             = Editor.RouterPush (Editor.suggestion_url sg) true)
          (Editor.onSearchLink (fun text _ _ => text) "milk"
             [Editor.mkHit "n1" "Todo" (Some "buy milk");
              Editor.mkHit "n3" "" None]).
Proof.
assert (H : Forall (fun h =>
                      isNoteLink_path ("/" ++ Editor.hit_id h)%string = true
                      /\ JS.includes ("/" ++ Editor.hit_id h)
                           "https://notes.example" = false)
              [Editor.mkHit "n1" "Todo" (Some "buy milk");
               Editor.mkHit "n3" "" None])
  by (repeat constructor).
split; [exact H|].
apply (proj2 (proj2 (onSearchLink_suggestions (fun text _ _ => text)
                       isNoteLink_path "https://notes.example" "milk" _)) H).
Defined.

(** X18: the address [onCreateLink] returns for a created note leads back
    to that note: hovering a link with this address sets the target of the
    preview to the id of the created note, and a click on it is followed
    inside the application, when the address is a note link that does not
    contain the origin. *)
Theorem created_link_leads_back
  (createNoteWithTitle : string -> Settled (option NoteModel))
  (isNoteLink : string -> bool) (origin title : string) (note : NoteModel)
  (editorEl : option MarkdownEditor) (link : Element) (p : Portal.t) :
createNoteWithTitle title = Fulfilled (Some note) ->
isNoteLink (Editor.noteUrl (Some note)) = true ->
JS.includes (Editor.noteUrl (Some note)) origin = false ->
getAttribute_href link = Some (Editor.noteUrl (Some note)) ->
JS.array_includes (classList link) "bookmark" = false ->
Editor.is_readOnly editorEl = false ->
Editor.onCreateLink createNoteWithTitle title
= Fulfilled (Editor.noteUrl (Some note))
/\ Portal.data
     (Portal.preview (Editor.onHoverLink isNoteLink true editorEl link p))
   = Some {| preview_id := Some (Note.id note) |}
/\ Editor.onClickLink isNoteLink origin (Editor.noteUrl (Some note))
   = Editor.RouterPush (Editor.noteUrl (Some note)) true.
Proof.
intros Hc Hl Ha Hh Hk Hr. split; [|split].
- unfold Editor.onCreateLink. rewrite Hc. reflexivity.
- unfold Editor.onHoverLink. rewrite Hr, Hk, Hh. simpl. simpl in Hl.
  rewrite Hl. reflexivity.
- unfold Editor.onClickLink. rewrite (remove_first_absent _ _ Ha), Hl.
  reflexivity.
Qed.

Lemma created_link_leads_back_witness :
(isNoteLink_path (Editor.noteUrl (Some stored_note)) = true
 /\ JS.includes (Editor.noteUrl (Some stored_note)) "https://notes.example"
    = false)
/\ Portal.data
     (Portal.preview
        (Editor.onHoverLink isNoteLink_path true writable
           (anchor_tag (Some "/n1")) closed_portal))
   = Some {| preview_id := Some "n1" |}.
Proof.
split; [split; reflexivity|].
apply (proj1 (proj2 (created_link_leads_back
                       (fun _ => Fulfilled (Some stored_note))
                       isNoteLink_path "https://notes.example" "Todo"
                       stored_note writable (anchor_tag (Some "/n1"))
                       closed_portal eq_refl eq_refl eq_refl eq_refl eq_refl
                       eq_refl))).
Defined.
